(** * Mini METARs: the station monitor and the window orchestrator

    A shallow embedding of the SolidJS front end ([App.tsx], [Metar.tsx],
    [tauri.ts]): signals and stores become record fields, [async] functions
    become resumable programs run by a single-threaded event loop, and calls
    into the Tauri back end become events of a trace whose replies are chosen
    by the environment. *)

From Stdlib Require Import ZArith QArith Qround Qabs List String Ascii Bool Lia Lqa.
From Stdlib Require Import Decimal DecimalString DecimalN Sorted.
Import ListNotations.

Local Open Scope string_scope.
Local Open Scope Z_scope.

(* ================================================================== *)
(** ** JavaScript values *)

(** A [number] that carries a finite value, as every number that arrives in
    a JSON reply does; arithmetic on it is exact. *)
Definition Number := Q.
Bind Scope Q_scope with Number.

(** A [Date]: its time value in milliseconds, or [None] for an Invalid Date
    (time value NaN). *)
Definition Date := option Z.

(** [a > b] on dates compares the time values; any comparison with NaN is
    false. *)
Definition Date_gt (a b : Date) : bool :=
  match a, b with
  | Some x, Some y => y <? x
  | _, _ => false
  end.

(** An optional property of an object received from the back end: the key
    may be missing ([undefined]), hold [null], or hold a value.  [v === null]
    is true for [js_null] only. *)
Inductive Optional (T : Type) : Type :=
| js_undefined
| js_null
| js_value (v : T).
Arguments js_undefined {T}.
Arguments js_null {T}.
Arguments js_value {T} v.

Definition strict_eq_null {T} (v : Optional T) : bool :=
  match v with
  | js_null => true
  | _ => false
  end.

(** [Array.prototype.slice]: a negative bound counts from the end, every
    bound is clamped to the array, a missing [end] is the length. *)
Definition relative_index (len i : Z) : Z :=
  if i <? 0 then Z.max (len + i) 0 else Z.min i len.

Definition slice {T} (array : list T) (start : Z) (end_ : option Z) : list T :=
  let len := Z.of_nat (List.length array) in
  let k := relative_index len start in
  let final := match end_ with
               | None => len
               | Some e => relative_index len e
               end in
  firstn (Z.to_nat (final - k)) (skipn (Z.to_nat k) array).

(** [Math.ceil] and [Math.floor]. *)
Definition Math_ceil (x : Number) : Z := Qceiling x.
Definition Math_floor (x : Number) : Z := Qfloor x.

(** [String.prototype.trim], on the white space of the Latin-1 range.  The
    front end never calls it; it is here to state what the specification
    says about station ids. *)
Definition is_white_space (c : ascii) : bool :=
  let n := nat_of_ascii c in
  ((9 <=? n) && (n <=? 13) || (n =? 32) || (n =? 160))%nat.

Fixpoint trim_start (s : string) : string :=
  match s with
  | EmptyString => EmptyString
  | String c rest => if is_white_space c then trim_start rest else s
  end.

Fixpoint rev_string (s acc : string) : string :=
  match s with
  | EmptyString => acc
  | String c rest => rev_string rest (String c acc)
  end.

Definition trim (s : string) : string :=
  rev_string (trim_start (rev_string (trim_start s) "")) "".

(* ------------------------------------------------------------------ *)
(** *** [Number.prototype.toFixed] *)

Definition digits (n : Z) : string := NilZero.string_of_uint (N.to_uint (Z.to_N n)).

Fixpoint zeros (k : nat) : string :=
  match k with
  | O => ""
  | S k' => String "0" (zeros k')
  end.

(** Steps of the ECMAScript algorithm: the sign is split off; [n] is the
    integer for which [n / 10^f - x] is closest to zero, the larger one on a
    tie; its digits are padded on the left to [f + 1] characters and the
    point is put before the last [f].  [toString] is [Number::toString],
    used from 10^21 on. *)
Definition toFixed (toString : Number -> string) (x : Number) (f : nat) : string :=
  let s := if Qlt_le_dec x 0 then "-" else "" in
  let x := Qabs x in
  if Qle_bool (inject_Z (10 ^ 21)) x then s ++ toString x
  else
    let n := Qfloor (x * inject_Z (10 ^ Z.of_nat f) + (1 # 2)) in
    let m := digits n in
    let m :=
      match f with
      | O => m
      | _ =>
          let k := String.length m in
          let m := if (k <=? f)%nat then zeros (f + 1 - k) ++ m else m in
          let k := String.length m in
          substring 0 (k - f) m ++ "." ++ substring (k - f) f m
      end in
    s ++ m.

(* ================================================================== *)
(** ** [tauri.ts]: the shapes exchanged with the back end *)

Inductive Units : Set := inHg | hPa.

Definition Units_eqb (a b : Units) : bool :=
  match a, b with
  | inHg, inHg | hPa, hPa => true
  | _, _ => false
  end.

Module MetarDto.
(** The two properties of the report that the component reads. *)
Record t : Type := mk { obsTime : string; rawOb : string }.
End MetarDto.

Module Station.
Record t : Type := mk { icaoId : string; iataId : string; faaId : string }.
End Station.

Module FetchMetarResponse.
Record Altimeter : Type := mkAltimeter { inHg : Number; hPa : Number }.
Record t : Type := mk {
  metar : MetarDto.t;
  windString : string;
  altimeter : Altimeter
}.
End FetchMetarResponse.

Module FetchAtisResponse.
Record t : Type := mk { letter : string; texts : list string }.
End FetchAtisResponse.

Module Window.
Inductive State : Set := Normal | Maximized | FullScreen.
Record t : Type := mk {
  state : State;
  position : Z * Z;
  size : Z * Z;
  scaleFactor : Number
}.
End Window.

Module Profile.
Record t : Type := mk {
  name : string;
  stations : list string;
  showInput : bool;
  showTitlebar : bool;
  window : Optional Window.t;
  units : Units;
  hideAirportIfMissingAtis : bool
}.
End Profile.

(* ================================================================== *)
(** ** The stores and signals of the two components *)

(** [MainUiStore] of [App.tsx]. *)
Module MainUiStore.
Record t : Type := mk {
  showScroll : bool;
  showInput : bool;
  showTitlebar : bool;
  units : Units
}.

Definition set_showScroll (v : bool) (s : t) : t :=
  mk v (showInput s) (showTitlebar s) (units s).
Definition set_showInput (v : bool) (s : t) : t :=
  mk (showScroll s) v (showTitlebar s) (units s).
Definition set_showTitlebar (v : bool) (s : t) : t :=
  mk (showScroll s) (showInput s) v (units s).
Definition set_units (v : Units) (s : t) : t :=
  mk (showScroll s) (showInput s) (showTitlebar s) v.
End MainUiStore.

(** The state that [App] closes over.  [containerRef] is [true] once the
    rendered [div] has been assigned to it. *)
Record AppState : Type := mkApp {
  inputId : string;
  ids : list string;
  mainUi : MainUiStore.t;
  containerRef : bool
}.

Definition setInputId (v : string) (a : AppState) : AppState :=
  mkApp v (ids a) (mainUi a) (containerRef a).
Definition setIds (v : list string) (a : AppState) : AppState :=
  mkApp (inputId a) v (mainUi a) (containerRef a).
Definition setMainUi (f : MainUiStore.t -> MainUiStore.t) (a : AppState) : AppState :=
  mkApp (inputId a) (ids a) (f (mainUi a)) (containerRef a).

(** [setIds(i, v)]: a write at one index of the store.  The only caller
    writes at [ids.length], which appends. *)
Definition setIdsAt (i : nat) (v : string) (a : AppState) : AppState :=
  setIds (firstn i (ids a) ++ v :: skipn (S i) (ids a)) a.

(** The altimeter store of a station.  It is created with the keys [inHg]
    and [hpa]; a store setter merges the keys of the object it is given, so
    writing a reply's [{inHg, hPa}] updates [inHg] and adds a key [hPa]. *)
Module AltimeterStore.
Record t : Type := mk { inHg : Number; hpa : Number; hPa : option Number }.

Definition merge (a : FetchMetarResponse.Altimeter) (s : t) : t :=
  mk (FetchMetarResponse.inHg a) (hpa s) (Some (FetchMetarResponse.hPa a)).
End AltimeterStore.

(** The signals of one [Metar] component, with its [requestedId] prop. *)
Record Signals : Type := mkSignals {
  requestedId : string;
  icaoId : string;
  currentTimestamp : option Date;
  validId : bool;
  displayId : string;
  wind : string;
  rawMetar : string;
  altimeter : AltimeterStore.t;
  showFullMetar : bool;
  atisLetter : string;
  atisTexts : list string;
  showAtisTexts : bool;
  metarTimerHandle : option Z;
  letterTimerHandle : option Z
}.

Definition setIcaoId (v : string) (s : Signals) : Signals :=
  mkSignals (requestedId s) v (currentTimestamp s) (validId s) (displayId s)
    (wind s) (rawMetar s) (altimeter s) (showFullMetar s) (atisLetter s)
    (atisTexts s) (showAtisTexts s) (metarTimerHandle s) (letterTimerHandle s).
Definition setCurrentTimestamp (v : Date) (s : Signals) : Signals :=
  mkSignals (requestedId s) (icaoId s) (Some v) (validId s) (displayId s)
    (wind s) (rawMetar s) (altimeter s) (showFullMetar s) (atisLetter s)
    (atisTexts s) (showAtisTexts s) (metarTimerHandle s) (letterTimerHandle s).
Definition setValidId (v : bool) (s : Signals) : Signals :=
  mkSignals (requestedId s) (icaoId s) (currentTimestamp s) v (displayId s)
    (wind s) (rawMetar s) (altimeter s) (showFullMetar s) (atisLetter s)
    (atisTexts s) (showAtisTexts s) (metarTimerHandle s) (letterTimerHandle s).
Definition setDisplayId (v : string) (s : Signals) : Signals :=
  mkSignals (requestedId s) (icaoId s) (currentTimestamp s) (validId s) v
    (wind s) (rawMetar s) (altimeter s) (showFullMetar s) (atisLetter s)
    (atisTexts s) (showAtisTexts s) (metarTimerHandle s) (letterTimerHandle s).
Definition setWind (v : string) (s : Signals) : Signals :=
  mkSignals (requestedId s) (icaoId s) (currentTimestamp s) (validId s)
    (displayId s) v (rawMetar s) (altimeter s) (showFullMetar s) (atisLetter s)
    (atisTexts s) (showAtisTexts s) (metarTimerHandle s) (letterTimerHandle s).
Definition setRawMetar (v : string) (s : Signals) : Signals :=
  mkSignals (requestedId s) (icaoId s) (currentTimestamp s) (validId s)
    (displayId s) (wind s) v (altimeter s) (showFullMetar s) (atisLetter s)
    (atisTexts s) (showAtisTexts s) (metarTimerHandle s) (letterTimerHandle s).
Definition setAltimeter (v : FetchMetarResponse.Altimeter) (s : Signals) : Signals :=
  mkSignals (requestedId s) (icaoId s) (currentTimestamp s) (validId s)
    (displayId s) (wind s) (rawMetar s) (AltimeterStore.merge v (altimeter s))
    (showFullMetar s) (atisLetter s) (atisTexts s) (showAtisTexts s)
    (metarTimerHandle s) (letterTimerHandle s).
Definition setShowFullMetar (v : bool) (s : Signals) : Signals :=
  mkSignals (requestedId s) (icaoId s) (currentTimestamp s) (validId s)
    (displayId s) (wind s) (rawMetar s) (altimeter s) v (atisLetter s)
    (atisTexts s) (showAtisTexts s) (metarTimerHandle s) (letterTimerHandle s).
Definition setAtisLetter (v : string) (s : Signals) : Signals :=
  mkSignals (requestedId s) (icaoId s) (currentTimestamp s) (validId s)
    (displayId s) (wind s) (rawMetar s) (altimeter s) (showFullMetar s) v
    (atisTexts s) (showAtisTexts s) (metarTimerHandle s) (letterTimerHandle s).
Definition setAtisTexts (v : list string) (s : Signals) : Signals :=
  mkSignals (requestedId s) (icaoId s) (currentTimestamp s) (validId s)
    (displayId s) (wind s) (rawMetar s) (altimeter s) (showFullMetar s)
    (atisLetter s) v (showAtisTexts s) (metarTimerHandle s) (letterTimerHandle s).
Definition setShowAtisTexts (v : bool) (s : Signals) : Signals :=
  mkSignals (requestedId s) (icaoId s) (currentTimestamp s) (validId s)
    (displayId s) (wind s) (rawMetar s) (altimeter s) (showFullMetar s)
    (atisLetter s) (atisTexts s) v (metarTimerHandle s) (letterTimerHandle s).
Definition setMetarTimerHandle (v : Z) (s : Signals) : Signals :=
  mkSignals (requestedId s) (icaoId s) (currentTimestamp s) (validId s)
    (displayId s) (wind s) (rawMetar s) (altimeter s) (showFullMetar s)
    (atisLetter s) (atisTexts s) (showAtisTexts s) (Some v) (letterTimerHandle s).
Definition setLetterTimerHandle (v : Z) (s : Signals) : Signals :=
  mkSignals (requestedId s) (icaoId s) (currentTimestamp s) (validId s)
    (displayId s) (wind s) (rawMetar s) (altimeter s) (showFullMetar s)
    (atisLetter s) (atisTexts s) (showAtisTexts s) (metarTimerHandle s) (Some v).

(** The signals as [createSignal] and [createStore] initialise them. *)
Definition Signals_init (requested : string) : Signals :=
  mkSignals requested "" None false "" "" "" (AltimeterStore.mk 0%Q 0%Q None)
    false "-" [] false None None.

(* ================================================================== *)
(** ** The world: both components, the timers, and the calls made so far *)

Inductive Level : Set := Trace | Debug | Warn.

(** The calls that suspend an [async] function: the log plugin, the
    commands of [tauri.ts] and the window API. *)
Inductive Call : Type :=
| CLog (level : Level) (message : string)
| CLookupStation (id : string)
| CUpdateMetar (id : string)
| CUpdateAtis (id : string)
| CInnerSize
| CScaleFactor
| CSetSize (width height : Number).

(** What a call settles with. *)
Inductive Reply : Type :=
| RVoid
| RStation (station : Station.t)
| RMetar (res : FetchMetarResponse.t)
| RAtis (res : FetchAtisResponse.t)
| RSize (width height : Number)
| RNumber (value : Number)
| RReject (error : string).

(** The functions handed to [setInterval]. *)
Inductive Callback : Set := cb_updateMetar | cb_updateAtis.

Record Timer : Type := mkTimer { handle : Z; callback : Callback; delay : Z }.

Record World : Type := mkWorld {
  app : AppState;
  metar : Signals;
  calls : list Call;        (* every call issued, oldest first *)
  timers : list Timer;      (* the intervals that are armed *)
  next_handle : Z;          (* the handle [setInterval] returns next *)
  draws : nat               (* how often [Math.random] has been called *)
}.

Definition on_app (f : AppState -> AppState) (w : World) : World :=
  mkWorld (f (app w)) (metar w) (calls w) (timers w) (next_handle w) (draws w).
Definition on_metar (f : Signals -> Signals) (w : World) : World :=
  mkWorld (app w) (f (metar w)) (calls w) (timers w) (next_handle w) (draws w).
Definition issue (c : Call) (w : World) : World :=
  mkWorld (app w) (metar w) (calls w ++ [c]) (timers w) (next_handle w) (draws w).

(** [setInterval] arms a timer and returns its handle; [clearInterval]
    disarms the timer of that handle, if there is one. *)
Definition setInterval (cb : Callback) (ms : Z) (w : World) : Z * World :=
  (next_handle w,
   mkWorld (app w) (metar w) (calls w)
     (timers w ++ [mkTimer (next_handle w) cb ms]) (next_handle w + 1) (draws w)).

Definition clearInterval (h : Z) (w : World) : World :=
  mkWorld (app w) (metar w) (calls w)
    (filter (fun t => negb (handle t =? h)) (timers w)) (next_handle w) (draws w).

(** What the page gets from its host: the platform, the rendered height of
    the container for a given state, the values [Math.random] returns in
    order, and the two library conversions. *)
Record Host : Type := mkHost {
  os_type : string;
  offsetHeight : AppState -> Signals -> Z;
  random_values : nat -> Number;
  Date_parse : string -> Date;
  Number_toString : Number -> string
}.

(* ================================================================== *)
(** ** [async] functions and the event loop *)

(** A program runs synchronously up to its next [await].  [Sync] is a block
    of reads and writes without suspension; [Read] branches on the current
    state; [Await] issues a call and suspends until it settles; [Spawn p k]
    calls the function [p] without awaiting it: [p] runs up to its first
    [await], the caller goes on with [k], and the rest of [p] runs whenever
    its call settles. *)
Inductive Async : Type :=
| Done
| Throw (error : string)
| Sync (f : World -> World) (k : Async)
| Read (k : World -> Async)
| Await (c : Call) (k : Reply -> Async)
| Spawn (p : Async) (k : Async).

(** [await p(); q]: [q] runs when [p] has returned; if [p] threw, the
    exception goes on. *)
Fixpoint seq (p q : Async) : Async :=
  match p with
  | Done => q
  | Throw e => Throw e
  | Sync f k => Sync f (seq k q)
  | Read k => Read (fun w => seq (k w) q)
  | Await c k => Await c (fun r => seq (k r) q)
  | Spawn p' k => Spawn p' (seq k q)
  end.

(** [try { body } catch (error) { handler }]. *)
Fixpoint try_catch (body : Async) (handler : string -> Async) : Async :=
  match body with
  | Done => Done
  | Throw e => handler e
  | Sync f k => Sync f (try_catch k handler)
  | Read k => Read (fun w => try_catch (k w) handler)
  | Await c k => Await c (fun r => try_catch (k r) handler)
  | Spawn p k => Spawn p (try_catch k handler)
  end.

(** [await call]: a rejection is thrown at the [await]. *)
Definition rejection (r : Reply) : option string :=
  match r with
  | RReject e => Some e
  | _ => None
  end.

Definition await (c : Call) (k : Reply -> Async) : Async :=
  Await c (fun r => match rejection r with
                    | Some e => Throw e
                    | None => k r
                    end).

(** Reading a property of a reply that has another shape. *)
Definition TypeError : Async := Throw "TypeError".

(** [batch(() => body)]: the writes of [body] are one synchronous block. *)
Definition batch (body : World -> World) : Async := Sync body Done.

(** The event loop: the world and the suspended continuations, each with the
    call it waits for. *)
Record Config : Type := mkConfig {
  world : World;
  pending : list (Call * (Reply -> Async))
}.

(** Run a program to completion or to its suspension.  An exception that
    nothing catches ends the task (an unhandled rejection). *)
Fixpoint exec (p : Async) (cfg : Config) : Config :=
  match p with
  | Done => cfg
  | Throw _ => cfg
  | Sync f k => exec k (mkConfig (f (world cfg)) (pending cfg))
  | Read k => exec (k (world cfg)) cfg
  | Await c k => mkConfig (issue c (world cfg)) (pending cfg ++ [(c, k)])
  | Spawn p' k => exec k (exec p' cfg)
  end.

Fixpoint remove_nth {A} (i : nat) (l : list A) : list A :=
  match l, i with
  | [], _ => []
  | _ :: l', O => l'
  | x :: l', S i' => x :: remove_nth i' l'
  end.

(** The [i]-th suspended call settles with [r]: its continuation runs. *)
Definition settle (i : nat) (r : Reply) (cfg : Config) : Config :=
  match nth_error (pending cfg) i with
  | None => cfg
  | Some (_, k) => exec (k r) (mkConfig (world cfg) (remove_nth i (pending cfg)))
  end.

(** A schedule: which suspended call settles next, and with what. *)
Definition run (schedule : list (nat * Reply)) (cfg : Config) : Config :=
  fold_left (fun c s => settle (fst s) (snd s) c) schedule cfg.

(** The object [currentProfileState] builds: the five keys of its literal. *)
Module CurrentProfile.
Record t : Type := mk {
  name : string;
  stations : list string;
  showTitlebar : bool;
  showInput : bool;
  units : Units
}.
End CurrentProfile.

(* ================================================================== *)
(** ** The components *)

Section Frontend.

Variable host : Host.

(* ------------------------------------------------------------------ *)
(** *** [App.tsx] *)

Definition removeIndex {T} (array : list T) (index : Z) : list T :=
  slice array 0 (Some index) ++ slice array (index + 1) None.

Definition useCustomTitlebar : bool := String.eqb (os_type host) "windows".

Definition App_init : AppState :=
  mkApp "" [] (MainUiStore.mk true true true inHg) true.

(** The height the window is set to is computed when [scaleFactor] has
    settled, from the layout and the title bar flag of that moment. *)
Definition resetWindowHeight : Async :=
  Read (fun w =>
    if containerRef (app w) then
      await CInnerSize (fun r =>
        match r with
        | RSize width _ =>
            await CScaleFactor (fun r =>
              match r with
              | RNumber scaleFactor =>
                  Read (fun w =>
                    let offset :=
                      if MainUiStore.showTitlebar (mainUi (app w))
                      then (if String.eqb (os_type host) "macos" then 30 else 24)
                      else 0 in
                    await (CSetSize width
                             (inject_Z (offsetHeight host (app w) (metar w) + offset)
                              * scaleFactor)%Q)
                          (fun _ => Done))
              | _ => TypeError
              end)
        | _ => TypeError
        end)
    else Done).

(** [fn()] is called, not awaited. *)
Definition applyFnAndResize (fn : Async) : Async :=
  Sync (on_app (setMainUi (MainUiStore.set_showScroll false)))
    (Spawn fn
       (seq resetWindowHeight
          (Sync (on_app (setMainUi (MainUiStore.set_showScroll true))) Done))).

Definition applyProfile (p : Profile.t) (a : AppState) : AppState :=
  setMainUi (MainUiStore.set_units (Profile.units p))
    (setMainUi (MainUiStore.set_showTitlebar (Profile.showTitlebar p))
       (setMainUi (MainUiStore.set_showInput (Profile.showInput p))
          (setIds (Profile.stations p) a))).

Definition loadProfile (p : Profile.t) : Async :=
  if strict_eq_null (Profile.window p)
  then applyFnAndResize (batch (on_app (applyProfile p)))
  else batch (on_app (applyProfile p)).

Definition addStation_body (a : AppState) : AppState :=
  if ((3 <=? String.length (inputId a)) && (String.length (inputId a) <=? 4))%nat
  then setInputId "" (setIdsAt (List.length (ids a)) (inputId a) a)
  else a.

Definition addStation : Async :=
  applyFnAndResize (batch (on_app addStation_body)).

Definition removeStation (index : Z) : Async :=
  applyFnAndResize (Sync (on_app (fun a => setIds (removeIndex (ids a) index) a)) Done).

(** The handlers of Ctrl/Cmd+D, +B and +U. *)
Definition toggleInput_body (a : AppState) : AppState :=
  if (0 <? List.length (ids a))%nat
  then setMainUi (fun s => MainUiStore.set_showInput (negb (MainUiStore.showInput s)) s) a
  else a.

Definition shortcut_D : Async :=
  applyFnAndResize (Sync (on_app toggleInput_body) Done).

Definition toggleTitlebar_body (a : AppState) : AppState :=
  if useCustomTitlebar
  then setMainUi (fun s => MainUiStore.set_showTitlebar (negb (MainUiStore.showTitlebar s)) s) a
  else a.

Definition shortcut_B : Async :=
  applyFnAndResize (Sync (on_app toggleTitlebar_body) Done).

Definition shortcut_U : Async :=
  Sync (on_app (setMainUi (fun s =>
          if Units_eqb (MainUiStore.units s) inHg
          then MainUiStore.set_units hPa s
          else MainUiStore.set_units inHg s))) Done.

(** The memo that Ctrl/Cmd+S and Ctrl/Cmd+Shift+S hand to the back end. *)
Definition currentProfileState (a : AppState) : CurrentProfile.t :=
  CurrentProfile.mk "" (ids a)
    (MainUiStore.showTitlebar (mainUi a))
    (MainUiStore.showInput (mainUi a))
    (MainUiStore.units (mainUi a)).

(* ------------------------------------------------------------------ *)
(** *** [Metar.tsx] *)

Definition Math_random (w : World) : Number * World :=
  (random_values host (draws w),
   mkWorld (app w) (metar w) (calls w) (timers w) (next_handle w) (S (draws w))).

(** [getRandomInt], given the value [Math.random()] returned. *)
Definition getRandomInt (random : Number) (min max : Number) : Z :=
  let minCeiled := Math_ceil min in
  let maxFloored := Math_floor max in
  Math_floor (random * inject_Z (maxFloored - minCeiled) + inject_Z minCeiled)%Q.

Definition altimeterString (ui : MainUiStore.t) (s : Signals) : string :=
  if Units_eqb (MainUiStore.units ui) inHg then
    if Qeq_bool (AltimeterStore.inHg (altimeter s)) 0 then ""
    else toFixed (Number_toString host) (AltimeterStore.inHg (altimeter s)) 2
  else
    if Qeq_bool (AltimeterStore.hpa (altimeter s)) 0 then ""
    else toFixed (Number_toString host) (AltimeterStore.hpa (altimeter s)) 0.

Definition warn_error (error : string) : Async :=
  await (CLog Warn ("Frontend error: " ++ error)) (fun _ => Done).

Definition fetchAndUpdateStation : Async :=
  try_catch
    (Read (fun w =>
       await (CLog Debug ("Frontend: Looking up requested ID: " ++ requestedId (metar w)))
         (fun _ =>
            Read (fun w =>
              await (CLookupStation (requestedId (metar w))) (fun r =>
                match r with
                | RStation station =>
                    Sync (on_metar (fun s =>
                            setValidId true
                              (setDisplayId
                                 (if negb (String.eqb (Station.faaId station) "-")
                                  then Station.faaId station
                                  else Station.icaoId station)
                                 (setIcaoId (Station.icaoId station) s))))
                      Done
                | _ => TypeError
                end)))))
    (fun error =>
       Sync (fun w => on_metar (setDisplayId (requestedId (metar w))) w)
         (warn_error error)).

(** [currentTimestamp() === undefined || newTimestamp > currentTimestamp()!] *)
Definition is_newer (current : option Date) (newTimestamp : Date) : bool :=
  match current with
  | None => true
  | Some t => Date_gt newTimestamp t
  end.

Definition applyMetar (res : FetchMetarResponse.t) (newTimestamp : Date)
    (s : Signals) : Signals :=
  setRawMetar (MetarDto.rawOb (FetchMetarResponse.metar res))
    (setWind (FetchMetarResponse.windString res)
       (setAltimeter (FetchMetarResponse.altimeter res)
          (setCurrentTimestamp newTimestamp s))).

Definition updateMetar : Async :=
  Read (fun w =>
    if negb (validId (metar w)) then Done
    else
      try_catch
        (await (CLog Trace ("Frontend: Starting update check for id " ++ icaoId (metar w)))
           (fun _ =>
              Read (fun w =>
                await (CUpdateMetar (icaoId (metar w))) (fun r =>
                  match r with
                  | RMetar res =>
                      await (CLog Trace "Frontend: Retrieved METAR: [object Object]")
                        (fun _ =>
                           let newTimestamp :=
                             Date_parse host
                               (MetarDto.obsTime (FetchMetarResponse.metar res)) in
                           Read (fun w =>
                             if is_newer (currentTimestamp (metar w)) newTimestamp
                             then
                               await (CLog Trace ("Frontend: New METAR found for "
                                                  ++ icaoId (metar w)))
                                 (fun _ =>
                                    Sync (on_metar (applyMetar res newTimestamp)) Done)
                             else
                               await (CLog Trace ("Frontend: Fetched METAR for "
                                                  ++ icaoId (metar w)
                                                  ++ " same as displayed"))
                                 (fun _ => Done)))
                  | _ => TypeError
                  end))))
        warn_error).

(** The props of the component: the function [App] passes as
    [resizeAfterFn].  It is called, not awaited. *)
Variable resizeAfterFn : Async -> Async.

Definition updateAtis : Async :=
  Read (fun w =>
    if negb (validId (metar w)) then Done
    else
      Spawn
        (resizeAfterFn
           (try_catch
              (await (CLog Trace ("Starting ATIS letter fetch for " ++ icaoId (metar w)))
                 (fun _ =>
                    Read (fun w =>
                      await (CUpdateAtis (icaoId (metar w))) (fun r =>
                        match r with
                        | RAtis res =>
                            await (CLog Trace "Retrieved ATIS Letter [object Object]")
                              (fun _ =>
                                 Sync (on_metar (fun s =>
                                         setAtisTexts (FetchAtisResponse.texts res)
                                           (setAtisLetter (FetchAtisResponse.letter res) s)))
                                   Done)
                        | _ => TypeError
                        end))))
              warn_error))
        Done).

(** [setHandle(setInterval(cb, 1000 * getRandomInt(min, max)))] *)
Definition arm (cb : Callback) (min max : Number)
    (setHandle : Z -> Signals -> Signals) (w : World) : World :=
  let (random, w) := Math_random w in
  let (h, w) := setInterval cb (1000 * getRandomInt random min max) w in
  on_metar (setHandle h) w.

Definition onMount : Async :=
  try_catch
    (seq fetchAndUpdateStation
       (Read (fun w =>
          if validId (metar w) then
            seq updateMetar
              (Sync (arm cb_updateMetar 120%Q 150%Q setMetarTimerHandle)
                 (seq updateAtis
                    (Sync (arm cb_updateAtis 20%Q 30%Q setLetterTimerHandle) Done)))
          else Done)))
    warn_error.

Definition onCleanup (w : World) : World :=
  let w := match metarTimerHandle (metar w) with
           | Some h => clearInterval h w
           | None => w
           end in
  match letterTimerHandle (metar w) with
  | Some h => clearInterval h w
  | None => w
  end.

Definition toggleShowMetar_body (s : Signals) : Signals :=
  if showFullMetar s then setShowFullMetar false s
  else setShowAtisTexts false (setShowFullMetar true s).

Definition toggleShowMetar : Async :=
  Spawn (resizeAfterFn (batch (on_metar toggleShowMetar_body))) Done.

Definition toggleShowAtisTexts_body (s : Signals) : Signals :=
  if (List.length (atisTexts s) =? 0)%nat then setShowAtisTexts false s
  else if showAtisTexts s then setShowAtisTexts false s
  else setShowFullMetar false (setShowAtisTexts true s).

Definition toggleShowAtisTexts : Async :=
  Spawn (resizeAfterFn (batch (on_metar toggleShowAtisTexts_body))) Done.

(** [<Show when={showFullMetar() && rawMetar() !== ""}>]: whether the full
    report is on the page. *)
Definition rendersFullMetar (s : Signals) : bool :=
  showFullMetar s && negb (String.eqb (rawMetar s) "").

End Frontend.

(* ================================================================== *)
(** ** The page: [App] renders one [Metar] with
    [resizeAfterFn={applyFnAndResize}] *)

Section Page.

Variable host : Host.

Definition resize := applyFnAndResize host.

Definition callback_program (cb : Callback) : Async :=
  match cb with
  | cb_updateMetar => updateMetar host
  | cb_updateAtis => updateAtis resize
  end.

(** An interval fires: its callback is called and its promise dropped. *)
Definition fire (h : Z) (cfg : Config) : Config :=
  match find (fun t => handle t =? h) (timers (world cfg)) with
  | Some t => exec (callback_program (callback t)) cfg
  | None => cfg
  end.

(** What can happen to the page. *)
Inductive Input : Type :=
| Mounts                              (* the station's [onMount] *)
| Unmounts                            (* the station's [onCleanup] *)
| ClicksAtisLetter                    (* [toggleShowAtisTexts] *)
| ClicksAltimeterOrWind               (* [toggleShowMetar] *)
| Fires (h : Z)                       (* an interval elapses *)
| Settles (i : nat) (r : Reply)       (* a suspended call settles *)
| Types (value : string)              (* [onInput] of the id field *)
| Submits                             (* [addStation] *)
| ClicksDelete (index : Z)            (* [removeStation] *)
| PressesD
| PressesB
| PressesU
| Loads (p : Profile.t).              (* [loadProfile], from Ctrl/Cmd+O or start-up *)

Definition step (i : Input) (cfg : Config) : Config :=
  match i with
  | Mounts => exec (onMount host resize) cfg
  | Unmounts => mkConfig (onCleanup (world cfg)) (pending cfg)
  | ClicksAtisLetter => exec (toggleShowAtisTexts resize) cfg
  | ClicksAltimeterOrWind => exec (toggleShowMetar resize) cfg
  | Fires h => fire h cfg
  | Settles i r => settle i r cfg
  | Types value => mkConfig (on_app (setInputId value) (world cfg)) (pending cfg)
  | Submits => exec (addStation host) cfg
  | ClicksDelete index => exec (removeStation host index) cfg
  | PressesD => exec (shortcut_D host) cfg
  | PressesB => exec (shortcut_B host) cfg
  | PressesU => exec shortcut_U cfg
  | Loads p => exec (loadProfile host p) cfg
  end.

Definition steps (inputs : list Input) (cfg : Config) : Config :=
  fold_left (fun c i => step i c) inputs cfg.

(** The page when it has rendered a station for [requested]. *)
Definition World_init (requested : string) : World :=
  mkWorld App_init (Signals_init requested) [] [] 1 0.

Definition Config_init (requested : string) : Config :=
  mkConfig (World_init requested) [].

Inductive reachable (requested : string) : Config -> Prop :=
| reachable_init : reachable requested (Config_init requested)
| reachable_step : forall i cfg,
    reachable requested cfg -> reachable requested (step i cfg).

End Page.

(* ================================================================== *)
(** ** Invariants of the event loop: definitions *)

(** A property of the world that holds whenever control is with the event
    loop, together with a restriction on the calls that are issued. *)
Section Invariant.

Variable P : World -> Prop.
Variable allowed : Call -> Prop.

(** Every synchronous block of the program keeps [P], and every call it
    issues is [allowed], whatever the replies are. *)
Fixpoint respects (p : Async) : Prop :=
  match p with
  | Done => True
  | Throw _ => True
  | Sync f k => (forall w, P w -> P (f w)) /\ respects k
  | Read k => forall w, P w -> respects (k w)
  | Await c k => allowed c /\ forall r, respects (k r)
  | Spawn p' k => respects p' /\ respects k
  end.

Definition safe (cfg : Config) : Prop :=
  P (world cfg) /\ Forall (fun ck => forall r, respects (snd ck r)) (pending cfg).

End Invariant.

(* ================================================================== *)
(** ** Instances *)

(** A host to run the page on: Windows, rows of 20 pixels, a fixed run of
    random values, and two timestamps that parse. *)
Definition example_random (n : nat) : Number :=
  match n with
  | O => 0
  | S O => 1 # 2
  | _ => 9 # 10
  end.

Definition example_parse (s : string) : Date :=
  if String.eqb s "2024-05-01T12:00:00Z" then Some 1714564800000
  else if String.eqb s "2024-05-01T13:00:00Z" then Some 1714568400000
  else None.

Definition example_host : Host :=
  mkHost "windows"
    (fun a _ => 20 * (1 + Z.of_nat (List.length (ids a))))
    example_random example_parse (fun _ => "1e+21").

(** The same page on a Mac. *)
Definition example_mac_host : Host :=
  mkHost "macos"
    (fun a _ => 20 * (1 + Z.of_nat (List.length (ids a))))
    example_random example_parse (fun _ => "1e+21").

(** What the back end answers for New York. *)
Definition KJFK : Station.t := Station.mk "KJFK" "JFK" "JFK".

Definition report_at_12 : FetchMetarResponse.t :=
  FetchMetarResponse.mk
    (MetarDto.mk "2024-05-01T12:00:00Z" "KJFK 011200Z 27010KT 10SM FEW250 18/07 A2992")
    "27010KT" (FetchMetarResponse.mkAltimeter (2992 # 100) 1013).


Definition advisory_B : FetchAtisResponse.t :=
  FetchAtisResponse.mk "B" ["KJFK ATIS INFO B"].

(** A station that has resolved, on a page at rest. *)
Definition resolved_page : Config :=
  mkConfig
    (mkWorld App_init
       (setValidId true (setDisplayId "JFK" (setIcaoId "KJFK" (Signals_init "JFK"))))
       [] [] 1 0)
    [].

(** A page that lists three stations. *)
Definition three_stations : Config :=
  mkConfig (on_app (setIds ["KJFK"; "KLAX"; "KORD"]) (World_init "KJFK")) [].

(** A profile saved without a [window] property. *)
Definition profile_without_window : Profile.t :=
  Profile.mk "" ["KJFK"; "KLAX"] false true js_undefined hPa false.

(* ================================================================== *)
(** ** The vocabulary of the properties *)

Section Properties.

Variable host : Host.

(** At most one panel of a station is open. *)
Definition exclusive (w : World) : Prop :=
  showFullMetar (metar w) && showAtisTexts (metar w) = false.

(** While a call is suspended, the oldest one settles with the reply that
    [answer] chooses for it. *)
Fixpoint drain (answer : Call -> Reply) (fuel : nat) (cfg : Config) : Config :=
  match fuel with
  | O => cfg
  | S fuel' =>
      match pending cfg with
      | [] => cfg
      | (c, _) :: _ => drain answer fuel' (settle 0 (answer c) cfg)
      end
  end.

(** One fetch delivered to the monitor: [updateMetar] runs from start to
    end, the fetch settles with [r] and the log calls resolve. *)
Definition answer_metar (r : Reply) (c : Call) : Reply :=
  match c with
  | CUpdateMetar _ => r
  | _ => RVoid
  end.

Definition deliver (r : Reply) (cfg : Config) : Config :=
  drain (answer_metar r) 4 (exec (updateMetar host) cfg).





(** [new Date(res.metar.obsTime)]. *)
Definition obs_date (res : FetchMetarResponse.t) : Date :=
  Date_parse host (MetarDto.obsTime (FetchMetarResponse.metar res)).

(** What a delivery leaves behind. *)
Definition delivered (r : Reply) (s : Signals) : Signals :=
  match r with
  | RMetar res =>
      if validId s && is_newer (currentTimestamp s) (obs_date res)
      then applyMetar res (obs_date res) s
      else s
  | _ => s
  end.

(** [setMainUi("showScroll", b)]. *)
Definition scroll (b : bool) (w : World) : World :=
  on_app (setMainUi (MainUiStore.set_showScroll b)) w.

Definition titlebar_offset (w : World) : Z :=
  if MainUiStore.showTitlebar (mainUi (app w))
  then (if String.eqb (os_type host) "macos" then 30 else 24)
  else 0.

(** The height asked for when the layout of [w] is measured. *)
Definition requested_height (scaleFactor : Number) (w : World) : Number :=
  (inject_Z (offsetHeight host (app w) (metar w) + titlebar_offset w) * scaleFactor)%Q.

(** The window answers: its inner size, its scale factor, and done. *)
Definition answer_window (width height scaleFactor : Number) (c : Call) : Reply :=
  match c with
  | CInnerSize => RSize width height
  | CScaleFactor => RNumber scaleFactor
  | _ => RVoid
  end.

(** The calls of one measured resize. *)
Definition resize_calls (width scaleFactor : Number) (w : World) : list Call :=
  if containerRef (app w)
  then [CInnerSize; CScaleFactor; CSetSize width (requested_height scaleFactor w)]
  else [].

(** The world after the calls [cs] have been issued in order. *)
Definition issue_all (cs : list Call) (w : World) : World :=
  fold_left (fun w c => issue c w) cs w.

(** No station listed, and the flags of [ui] but for [showScroll]. *)
Definition same_flags (ui : MainUiStore.t) (w : World) : Prop :=
  ids (app w) = []
  /\ MainUiStore.showInput (mainUi (app w)) = MainUiStore.showInput ui
  /\ MainUiStore.showTitlebar (mainUi (app w)) = MainUiStore.showTitlebar ui
  /\ MainUiStore.units (mainUi (app w)) = MainUiStore.units ui.

(** The calls that fetch a report or an advisory. *)
Definition is_fetch (c : Call) : bool :=
  match c with
  | CUpdateMetar _ => true
  | CUpdateAtis _ => true
  | _ => false
  end.

Definition no_fetch (c : Call) : Prop := is_fetch c = false.

(** The monitor of an id that was not found: not valid, shown under the id
    as typed, no interval armed, no fetch issued. *)
Definition invalid_station (w : World) : Prop :=
  validId (metar w) = false
  /\ displayId (metar w) = requestedId (metar w)
  /\ metarTimerHandle (metar w) = None
  /\ letterTimerHandle (metar w) = None
  /\ timers w = []
  /\ forallb (fun c => negb (is_fetch c)) (calls w) = true.

(** A station is mounted once; what follows a failed lookup is anything
    but a mount. *)
Definition is_mount (i : Input) : bool :=
  match i with
  | Mounts => true
  | _ => false
  end.



(** A mount whose lookup succeeds, up to the moment [onMount] returns: the
    log calls resolve, the lookup settles with [station] and the first
    METAR fetch with [rm]. *)
Definition mount_schedule (station : Station.t) (rm : Reply) : list (nat * Reply) :=
  [(0%nat, RVoid); (0%nat, RStation station); (0%nat, RVoid); (0%nat, rm)]
  ++ match rm with
     | RMetar _ => [(0%nat, RVoid); (0%nat, RVoid)]
     | _ => [(0%nat, RVoid)]
     end.

(** The two intervals of a station, from the first two random values. *)
Definition mounted_timers : list Timer :=
  [mkTimer 1 cb_updateMetar (1000 * getRandomInt (random_values host 0) 120%Q 150%Q);
   mkTimer 2 cb_updateAtis (1000 * getRandomInt (random_values host 1) 20%Q 30%Q)].

(** The mount and the first advisory fetch it starts, to the end: the
    advisory fetch settles with [ra] and the window answers. *)
Definition first_poll_schedule (station : Station.t) (rm ra : Reply)
    (width height scaleFactor : Number) : list (nat * Reply) :=
  mount_schedule station rm
  ++ [(0%nat, RVoid); (0%nat, RSize width height); (0%nat, ra);
      (0%nat, RNumber scaleFactor); (0%nat, RVoid); (0%nat, RVoid)].

(** The number a string of decimal digits denotes. *)
Definition decimal_value (s : string) : option N :=
  option_map N.of_uint (NilEmpty.uint_of_string s).

(** The parts of a fixed-point text. *)
Definition minus_sign (x : Number) : string :=
  if Qlt_le_dec x 0 then "-" else "".

Definition decimal_point (f : nat) : string :=
  match f with
  | O => ""
  | _ => "."
  end.

(** JavaScript's 29.921, the double nearest to it. *)
Definition double_29_921 : Number := 4211006389079769 # 140737488355328.

(** A station whose altimeter store holds the two values. *)
Definition with_altimeter (v_inHg v_hpa : Number) : Signals :=
  mkSignals "KJFK" "KJFK" None true "JFK" "" "" (AltimeterStore.mk v_inHg v_hpa None)
    false "-" [] false None None.

(** The three flags of [ui] that a resize does not touch. *)
Definition same_ui (ui : MainUiStore.t) (w : World) : Prop :=
  MainUiStore.showInput (mainUi (app w)) = MainUiStore.showInput ui
  /\ MainUiStore.showTitlebar (mainUi (app w)) = MainUiStore.showTitlebar ui
  /\ MainUiStore.units (mainUi (app w)) = MainUiStore.units ui.

(** No interval is armed and the fetches issued so far are [fetched]. *)
Definition cancelled (fetched : list Call) (w : World) : Prop :=
  timers w = [] /\ filter is_fetch (calls w) = fetched.



(** The window calls of a resize, the [n]-th of which is rejected. *)
Definition rejecting_schedule (n : nat) (error : string)
    (width height scaleFactor : Number) : list (nat * Reply) :=
  firstn n [(0%nat, RSize width height); (0%nat, RNumber scaleFactor)]
  ++ [(0%nat, RReject error)].

(** The id a resolved station is shown under. *)
Definition shown_id (station : Station.t) : string :=
  if String.eqb (Station.faaId station) "-"
  then Station.icaoId station
  else Station.faaId station.

(** Until an observation is accepted, the display signals hold what they
    were created with. *)
Definition awaiting_first_metar (w : World) : Prop :=
  currentTimestamp (metar w) = None ->
  rawMetar (metar w) = ""
  /\ wind (metar w) = ""
  /\ altimeter (metar w) = AltimeterStore.mk 0 0 None.

(* ================================================================== *)
(** ** Invariants of the event loop: lemmas *)

Section InvariantLemmas.

Variable P : World -> Prop.
Variable allowed : Call -> Prop.
Hypothesis P_issue : forall c w, allowed c -> P w -> P (issue c w).

Lemma respects_seq (p q : Async) :
  respects P allowed p -> respects P allowed q -> respects P allowed (seq p q).
Proof.
  induction p as [ | e | f k IH | k IH | c k IH | p1 IH1 k IH2 ]; simpl; intros Hp Hq;
    solve [ auto | destruct Hp; split; auto ].
Qed.

Lemma respects_try_catch (p : Async) (handler : string -> Async) :
  respects P allowed p ->
  (forall e, respects P allowed (handler e)) ->
  respects P allowed (try_catch p handler).
Proof.
  induction p as [ | e | f k IH | k IH | c k IH | p1 IH1 k IH2 ]; simpl; intros Hp Hh;
    solve [ auto | destruct Hp; split; auto ].
Qed.

Lemma respects_await (c : Call) (k : Reply -> Async) :
  allowed c -> (forall r, respects P allowed (k r)) -> respects P allowed (await c k).
Proof.
  intros Hc Hk; split; [exact Hc|].
  intros r; destruct (rejection r); simpl; auto.
Qed.

Lemma exec_safe (p : Async) :
  forall cfg, respects P allowed p -> safe P allowed cfg -> safe P allowed (exec p cfg).
Proof.
  induction p as [ | e | f k IH | k IH | c k IH | p1 IH1 k IH2 ];
    simpl; intros cfg Hp Hs; [ exact Hs | exact Hs | | | | ].
  - destruct Hp as [Hf Hk]. apply IH; [exact Hk|].
    destruct Hs as [Hw Hq]. split; simpl; auto.
  - apply IH; [apply Hp; apply Hs | exact Hs].
  - destruct Hp as [Hc Hk]. destruct Hs as [Hw Hq]. split; simpl.
    + apply P_issue; assumption.
    + apply Forall_app; split; [exact Hq|]. constructor; [exact Hk | constructor].
  - destruct Hp as [H1 H2]. apply IH2; [exact H2|]. apply IH1; assumption.
Qed.

Lemma remove_nth_Forall {A} (Q : A -> Prop) (l : list A) :
  forall i, Forall Q l -> Forall Q (remove_nth i l).
Proof.
  induction l as [|x l IH]; intros i H; simpl.
  - destruct i; constructor.
  - inversion H; subst. destruct i; [assumption|]. constructor; auto.
Qed.

Lemma settle_safe (i : nat) (r : Reply) (cfg : Config) :
  safe P allowed cfg -> safe P allowed (settle i r cfg).
Proof.
  intros Hs. unfold settle.
  destruct (nth_error (pending cfg) i) as [[c k]|] eqn:E; [|exact Hs].
  destruct Hs as [Hw Hq].
  apply exec_safe.
  - apply nth_error_In in E.
    rewrite Forall_forall in Hq. exact (Hq _ E r).
  - split; simpl; [exact Hw|]. apply remove_nth_Forall; exact Hq.
Qed.

Lemma run_safe (schedule : list (nat * Reply)) :
  forall cfg, safe P allowed cfg -> safe P allowed (run schedule cfg).
Proof.
  induction schedule as [|[i r] rest IH]; intros cfg Hs; simpl; [exact Hs|].
  apply IH. apply settle_safe. exact Hs.
Qed.

End InvariantLemmas.

(** Takes a goal [respects P allowed p] apart, down to the synchronous
    blocks and the calls of [p]. *)
Ltac respects_step :=
  match goal with
  | |- True => exact I
  | |- respects _ _ (seq _ _) => apply respects_seq
  | |- respects _ _ (try_catch _ _) => apply respects_try_catch
  | |- respects _ _ (await _ _) => apply respects_await
  | |- respects _ _ (if ?b then _ else _) => destruct b eqn:?
  | |- respects _ _ (match ?r with _ => _ end) => destruct r
  | |- respects _ _ (Sync _ _) => split
  | |- respects _ _ (Spawn _ _) => split
  | |- respects _ _ (Await _ _) => split
  | |- respects _ _ (Read _) => intros ? ?
  | |- respects _ _ Done => exact I
  | |- respects _ _ (Throw _) => exact I
  | |- respects _ _ TypeError => exact I
  | |- respects _ _ (batch _) => split
  | |- respects _ _ (warn_error _) => unfold warn_error
  | |- respects _ _ (resetWindowHeight _) => unfold resetWindowHeight
  | |- respects _ _ (applyFnAndResize _ _) => unfold applyFnAndResize
  | |- respects _ _ (resize _ _) => unfold resize, applyFnAndResize
  | |- respects _ _ (fetchAndUpdateStation) => unfold fetchAndUpdateStation
  | |- respects _ _ (updateMetar _) => unfold updateMetar
  | |- respects _ _ (updateAtis _) => unfold updateAtis
  | |- forall _, _ => intro
  end.

Ltac respects_cases := repeat respects_step.

(* ================================================================== *)
(** ** Properties *)

(* ------------------------------------------------------------------ *)
(** *** The two panels of a station *)

Lemma toggleShowMetar_body_exclusive (s : Signals) :
  showFullMetar (toggleShowMetar_body s) && showAtisTexts (toggleShowMetar_body s) = false.
Proof.
  unfold toggleShowMetar_body. destruct (showFullMetar s) eqn:E; simpl; reflexivity.
Qed.

Lemma toggleShowAtisTexts_body_exclusive (s : Signals) :
  showFullMetar (toggleShowAtisTexts_body s)
  && showAtisTexts (toggleShowAtisTexts_body s) = false.
Proof.
  unfold toggleShowAtisTexts_body.
  destruct (List.length (atisTexts s) =? 0)%nat; simpl; [apply andb_false_r|].
  destruct (showAtisTexts s); simpl; [apply andb_false_r | reflexivity].
Qed.

Lemma onCleanup_metar (w : World) : metar (onCleanup w) = metar w.
Proof.
  unfold onCleanup.
  destruct (metarTimerHandle (metar w)); simpl;
    destruct (letterTimerHandle (metar w)); reflexivity.
Qed.

Lemma step_exclusive (i : Input) (cfg : Config) :
  safe exclusive (fun _ => True) cfg ->
  safe exclusive (fun _ => True) (step host i cfg).
Proof.
  intros Hs.
  assert (Hissue : forall c w, True -> exclusive w -> exclusive (issue c w))
    by (intros; assumption).
  destruct i; cbn [step];
    try (apply exec_safe; [exact Hissue | | exact Hs]).
  - unfold onMount; respects_cases; assumption.
  - destruct Hs as [Hw Hq]. split; [|exact Hq].
    unfold exclusive; simpl. rewrite onCleanup_metar. exact Hw.
  - unfold toggleShowAtisTexts; respects_cases; try assumption.
    apply toggleShowAtisTexts_body_exclusive.
  - unfold toggleShowMetar; respects_cases; try assumption.
    apply toggleShowMetar_body_exclusive.
  - unfold fire. destruct (find _ _) as [t|]; [|exact Hs].
    apply exec_safe; [exact Hissue | | exact Hs].
    destruct (callback t); cbn [callback_program]; respects_cases; assumption.
  - apply settle_safe; [exact Hissue | exact Hs].
  - exact Hs.
  - unfold addStation; respects_cases; assumption.
  - unfold removeStation; respects_cases; assumption.
  - unfold shortcut_D; respects_cases; assumption.
  - unfold shortcut_B; respects_cases; assumption.
  - unfold shortcut_U; respects_cases; assumption.
  - unfold loadProfile. destruct (strict_eq_null _); respects_cases; assumption.
Qed.

Lemma reachable_exclusive (requested : string) (cfg : Config) :
  reachable host requested cfg -> safe exclusive (fun _ => True) cfg.
Proof.
  induction 1 as [|i cfg _ IH].
  - split; [reflexivity | constructor].
  - apply step_exclusive; exact IH.
Qed.

(** What a click does to the signals of the station, whatever else is in
    flight. *)
Lemma exec_resize_batch_metar (f : Signals -> Signals) (cfg : Config) :
  metar (world (exec (resize host (batch (on_metar f))) cfg)) = f (metar (world cfg)).
Proof.
  unfold resize, applyFnAndResize, batch, resetWindowHeight.
  cbn [exec seq world pending]. cbn [on_app on_metar app metar containerRef setMainUi].
  destruct (containerRef (app (world cfg))); reflexivity.
Qed.

(** C2. In every state the page can reach, a station never shows its full
    report and its advisory texts together; a click on the altimeter or the
    wind flips the full report and, when that shows it, hides the advisory
    texts; a click on the letter that shows the advisory texts hides the
    full report. *)
Theorem panels_mutually_exclusive (requested : string) (cfg : Config) :
  reachable host requested cfg ->
  let s := metar (world cfg) in
  let after_metar := metar (world (step host ClicksAltimeterOrWind cfg)) in
  let after_atis := metar (world (step host ClicksAtisLetter cfg)) in
  (showFullMetar s && showAtisTexts s = false)
  /\ showFullMetar after_metar = negb (showFullMetar s)
  /\ (showFullMetar after_metar = true -> showAtisTexts after_metar = false)
  /\ (showAtisTexts after_atis = true ->
      showAtisTexts s = false /\ showFullMetar after_atis = false)
  /\ (showFullMetar after_metar && showAtisTexts after_metar = false)
  /\ (showFullMetar after_atis && showAtisTexts after_atis = false).
Proof.
  intros Hr s after_metar after_atis.
  assert (Em : after_metar = toggleShowMetar_body s).
  { unfold after_metar, s. cbn [step]. unfold toggleShowMetar. cbn [exec].
    apply exec_resize_batch_metar. }
  assert (Ea : after_atis = toggleShowAtisTexts_body s).
  { unfold after_atis, s. cbn [step]. unfold toggleShowAtisTexts. cbn [exec].
    apply exec_resize_batch_metar. }
  split; [exact (proj1 (reachable_exclusive requested cfg Hr))|].
  rewrite Em, Ea.
  split; [|split; [|split; [|split]]].
  - unfold toggleShowMetar_body. destruct (showFullMetar s); reflexivity.
  - unfold toggleShowMetar_body.
    destruct (showFullMetar s); simpl; [discriminate | reflexivity].
  - unfold toggleShowAtisTexts_body.
    destruct (List.length (atisTexts s) =? 0)%nat; simpl; [discriminate|].
    destruct (showAtisTexts s); simpl; [discriminate | split; reflexivity].
  - apply toggleShowMetar_body_exclusive.
  - apply toggleShowAtisTexts_body_exclusive.
Qed.

(* ------------------------------------------------------------------ *)
(** *** The observation a station displays *)

Lemma deliver_metar (r : Reply) (w : World) :
  metar (world (deliver r (mkConfig w []))) = delivered r (metar w)
  /\ pending (deliver r (mkConfig w [])) = []
  /\ app (world (deliver r (mkConfig w []))) = app w
  /\ timers (world (deliver r (mkConfig w []))) = timers w.
Proof.
  unfold deliver, delivered, updateMetar, obs_date.
  cbn [exec world pending].
  destruct (validId (metar w)) eqn:Ev; cbn [negb andb].
  - destruct r; cbn; try (repeat split; reflexivity).
    destruct (is_newer (currentTimestamp (metar w)) _) eqn:En;
      cbn; rewrite ?En; repeat split; reflexivity.
  - destruct r; cbn; repeat split; reflexivity.
Qed.








(* ------------------------------------------------------------------ *)
(** *** The resize transaction *)

(** With a mutation that does not suspend, the transaction is in order:
    scrolling is suppressed, the mutation runs, the layout it leaves is
    measured and requested once, scrolling is restored. *)
Lemma applyFnAndResize_sync (f : World -> World) (w : World)
    (width height scaleFactor : Number) :
  drain (answer_window width height scaleFactor) 3
    (exec (applyFnAndResize host (Sync f Done)) (mkConfig w []))
  = mkConfig
      (scroll true
         (issue_all (resize_calls width scaleFactor (f (scroll false w)))
            (f (scroll false w))))
      [].
Proof.
  unfold applyFnAndResize, resetWindowHeight, resize_calls.
  cbn [exec seq world pending]. fold (scroll false w).
  destruct (containerRef (app (f (scroll false w)))) eqn:Ec.
  - cbn. reflexivity.
  - cbn. reflexivity.
Qed.

Lemma issue_all_app (cs : list Call) (w : World) :
  app (issue_all cs w) = app w /\ metar (issue_all cs w) = metar w
  /\ calls (issue_all cs w) = (calls w ++ cs)%list
  /\ timers (issue_all cs w) = timers w.
Proof.
  revert w. induction cs as [|c cs IH]; intros w; cbn [issue_all fold_left].
  - rewrite app_nil_r. repeat split.
  - destruct (IH (issue c w)) as (Ha & Hm & Hc & Ht).
    unfold issue_all in *. rewrite Ha, Hm, Hc, Ht. cbn.
    rewrite <- app_assoc. repeat split.
Qed.

Lemma scroll_issue_all (b : bool) (cs : list Call) (w : World) :
  app (scroll b (issue_all cs w)) = setMainUi (MainUiStore.set_showScroll b) (app w)
  /\ metar (scroll b (issue_all cs w)) = metar w
  /\ calls (scroll b (issue_all cs w)) = (calls w ++ cs)%list
  /\ timers (scroll b (issue_all cs w)) = timers w.
Proof.
  destruct (issue_all_app cs w) as (Ha & Hm & Hc & Ht).
  unfold scroll, on_app. cbn [app metar calls timers].
  rewrite Ha, Hm, Hc, Ht. repeat split.
Qed.

(** Before anything settles, the mutation has already been applied. *)
Lemma exec_applyFnAndResize_app (f : AppState -> AppState) (cfg : Config) :
  ids (app (world (exec (applyFnAndResize host (Sync (on_app f) Done)) cfg)))
  = ids (f (setMainUi (MainUiStore.set_showScroll false) (app (world cfg))))
  /\ inputId (app (world (exec (applyFnAndResize host (Sync (on_app f) Done)) cfg)))
     = inputId (f (setMainUi (MainUiStore.set_showScroll false) (app (world cfg)))).
Proof.
  unfold applyFnAndResize, resetWindowHeight.
  cbn [exec seq world pending]. cbn [on_app app].
  destruct (containerRef _); cbn; split; reflexivity.
Qed.

(* ------------------------------------------------------------------ *)
(** *** The station list *)

Lemma setIdsAt_end (v : string) (a : AppState) :
  ids (setIdsAt (List.length (ids a)) v a) = (ids a ++ [v])%list.
Proof.
  unfold setIdsAt. cbn [ids setIds].
  rewrite firstn_all, skipn_all2 by lia. reflexivity.
Qed.

Lemma addStation_body_ids (a : AppState) :
  ids (addStation_body a)
  = (if (String.length (inputId a) =? 3)%nat || (String.length (inputId a) =? 4)%nat
     then ids a ++ [inputId a] else ids a)%list
  /\ inputId (addStation_body a)
     = (if (String.length (inputId a) =? 3)%nat || (String.length (inputId a) =? 4)%nat
        then "" else inputId a).
Proof.
  unfold addStation_body.
  destruct (3 <=? String.length (inputId a))%nat eqn:E3;
    destruct (String.length (inputId a) <=? 4)%nat eqn:E4;
    destruct (String.length (inputId a) =? 3)%nat eqn:F3;
    destruct (String.length (inputId a) =? 4)%nat eqn:F4;
    cbn [andb orb];
    repeat match goal with
      | H : (_ <=? _)%nat = true |- _ => apply Nat.leb_le in H
      | H : (_ <=? _)%nat = false |- _ => apply Nat.leb_gt in H
      | H : (_ =? _)%nat = true |- _ => apply Nat.eqb_eq in H
      | H : (_ =? _)%nat = false |- _ => apply Nat.eqb_neq in H
      end;
    try lia;
    try (split; reflexivity);
    (split; [ cbn [setInputId ids]; apply setIdsAt_end | reflexivity ]).
Qed.

(** C3, as the code has it.  [addStation] accepts what is in the input
    field exactly when its length, untrimmed, is 3 or 4: the id is then
    appended as typed at the end of the station list (one element more, the
    new id last) and the field is cleared; otherwise the list and the field
    stay as they are. *)
Theorem addStation_length_gate (typed : string) (cfg : Config) :
  let before := ids (app (world cfg)) in
  let submitted := step host Submits (step host (Types typed) cfg) in
  let after := ids (app (world submitted)) in
  let accepted := ((String.length typed =? 3) || (String.length typed =? 4))%nat in
  after = (if accepted then before ++ [typed] else before)%list
  /\ List.length after
     = (if accepted then S (List.length before) else List.length before)
  /\ inputId (app (world submitted)) = (if accepted then "" else typed).
Proof.
  intros before submitted after accepted.
  assert (E : after = (if accepted then before ++ [typed] else before)%list
              /\ inputId (app (world submitted)) = (if accepted then "" else typed)).
  { unfold after, submitted. cbn [step]. unfold addStation, batch.
    destruct (exec_applyFnAndResize_app addStation_body
                (mkConfig (on_app (setInputId typed) (world cfg)) (pending cfg)))
      as [Ei Ev].
    rewrite Ei, Ev.
    destruct (addStation_body_ids
                (setMainUi (MainUiStore.set_showScroll false)
                   (app (world (mkConfig (on_app (setInputId typed) (world cfg))
                                  (pending cfg)))))) as [Hi Hv].
    rewrite Hi, Hv. cbn [world on_app app setMainUi setInputId inputId ids].
    split; reflexivity. }
  destruct E as [E1 E2]. split; [exact E1|]. split; [|exact E2].
  rewrite E1. destruct accepted; [|reflexivity].
  rewrite length_app. cbn [List.length]. lia.
Qed.

Lemma removeIndex_in_range {T} (array : list T) (index : Z) :
  0 <= index < Z.of_nat (List.length array) ->
  removeIndex array index
  = (firstn (Z.to_nat index) array ++ skipn (S (Z.to_nat index)) array)%list.
Proof.
  intros Hi. unfold removeIndex, slice, relative_index.
  replace (0 <? 0) with false by reflexivity.
  replace (index <? 0) with false by (symmetry; apply Z.ltb_ge; lia).
  replace (index + 1 <? 0) with false by (symmetry; apply Z.ltb_ge; lia).
  rewrite !Z.min_l by lia.
  replace (Z.to_nat (index - 0)) with (Z.to_nat index) by lia.
  change (Z.to_nat 0) with 0%nat. rewrite skipn_O.
  replace (Z.to_nat (index + 1)) with (S (Z.to_nat index)) by lia.
  f_equal. apply firstn_all2. rewrite length_skipn. lia.
Qed.

(** C9. Deleting the station at an index of the list removes that element
    and nothing else: those before it keep their place, those after it move
    up by one, in the same order. *)
Theorem removeStation_preserves_order (index : Z) (cfg : Config) :
  0 <= index < Z.of_nat (List.length (ids (app (world cfg)))) ->
  let before := ids (app (world cfg)) in
  let after := ids (app (world (step host (ClicksDelete index) cfg))) in
  let i := Z.to_nat index in
  after = (firstn i before ++ skipn (S i) before)%list
  /\ S (List.length after) = List.length before
  /\ (forall j, (j < i)%nat -> nth_error after j = nth_error before j)
  /\ (forall j, (i <= j)%nat -> nth_error after j = nth_error before (S j))
  /\ removeIndex ["KJFK"; "KLAX"; "KORD"] 1 = ["KJFK"; "KORD"].
Proof.
  intros Hi before after i.
  assert (E : after = (firstn i before ++ skipn (S i) before)%list).
  { unfold after. cbn [step]. unfold removeStation.
    destruct (exec_applyFnAndResize_app
                (fun a => setIds (removeIndex (ids a) index) a) cfg) as [Ei _].
    rewrite Ei. cbn [setIds ids setMainUi].
    apply removeIndex_in_range. exact Hi. }
  assert (Hlen : List.length (firstn i before) = i).
  { apply firstn_length_le. unfold i, before. lia. }
  split; [exact E|]. rewrite E. repeat split.
  - rewrite length_app, Hlen, length_skipn. unfold i, before. lia.
  - intros j Hj. rewrite nth_error_app1 by lia.
    rewrite nth_error_firstn.
    replace (j <? i)%nat with true by (symmetry; apply Nat.ltb_lt; exact Hj).
    reflexivity.
  - intros j Hj. rewrite nth_error_app2 by lia.
    rewrite nth_error_skipn, Hlen. f_equal. lia.
Qed.

(* ------------------------------------------------------------------ *)
(** *** The shortcut that hides the input panel *)

Lemma toggleInput_body_empty (a : AppState) : ids a = [] -> toggleInput_body a = a.
Proof. intros E. unfold toggleInput_body. rewrite E. reflexivity. Qed.

Lemma shortcut_D_respects (ui : MainUiStore.t) :
  respects (same_flags ui) (fun _ => True) (shortcut_D host).
Proof.
  unfold shortcut_D. respects_cases; try assumption.
  match goal with H : same_flags _ _ |- _ => destruct H as (Hi & Hrest) end.
  unfold on_app. rewrite toggleInput_body_empty by exact Hi.
  split; [exact Hi | exact Hrest].
Qed.

(** C10. With an empty station list, Ctrl/Cmd+D changes neither
    [showInput] nor the title bar flag nor the units, at any moment of the
    resize it starts; when the window has answered, scrolling is shown
    again, so the store is as it was at rest. *)
Theorem shortcut_D_gated (cfg : Config) (schedule : list (nat * Reply))
    (width height scaleFactor : Number) :
  ids (app (world cfg)) = [] ->
  pending cfg = [] ->
  let ui := mainUi (app (world cfg)) in
  let during := mainUi (app (world (run schedule (step host PressesD cfg)))) in
  let finished :=
    drain (answer_window width height scaleFactor) 3 (step host PressesD cfg) in
  MainUiStore.showInput during = MainUiStore.showInput ui
  /\ MainUiStore.showTitlebar during = MainUiStore.showTitlebar ui
  /\ MainUiStore.units during = MainUiStore.units ui
  /\ pending finished = []
  /\ ids (app (world finished)) = []
  /\ mainUi (app (world finished)) = MainUiStore.set_showScroll true ui
  /\ (MainUiStore.showScroll ui = true -> mainUi (app (world finished)) = ui).
Proof.
  intros Hids Hp ui during finished.
  assert (Hsafe : safe (same_flags ui) (fun _ => True)
                    (run schedule (step host PressesD cfg))).
  { apply run_safe; [intros; assumption|].
    cbn [step]. apply exec_safe; [intros; assumption | apply shortcut_D_respects |].
    split; [|rewrite Hp; constructor].
    repeat split; try reflexivity. exact Hids. }
  destruct Hsafe as [(_ & H1 & H2 & H3) _].
  split; [exact H1|]. split; [exact H2|]. split; [exact H3|].
  destruct cfg as [w q]. cbn [pending world] in *. subst q.
  assert (E : finished
              = mkConfig
                  (scroll true
                     (issue_all (resize_calls width scaleFactor (scroll false w))
                        (scroll false w))) []).
  { unfold finished. cbn [step]. unfold shortcut_D.
    rewrite applyFnAndResize_sync.
    replace (on_app toggleInput_body (scroll false w)) with (scroll false w);
      [reflexivity|].
    unfold scroll, on_app. rewrite toggleInput_body_empty; [reflexivity|].
    cbn. exact Hids. }
  rewrite E. cbn [pending world].
  destruct (scroll_issue_all true (resize_calls width scaleFactor (scroll false w))
              (scroll false w)) as (Ha & _).
  rewrite Ha. unfold scroll, on_app. cbn [app setMainUi ids mainUi].
  split; [reflexivity|]. split; [exact Hids|]. split; [reflexivity|].
  intros Hs. unfold ui. destruct (mainUi (app w)); cbn in *. subst. reflexivity.
Qed.

(* ------------------------------------------------------------------ *)
(** *** Loading a profile *)

(** C4, as the code runs.  A profile is applied to the station list and the
    flags in every case.  The window is measured and resized, once and
    after the profile is applied, exactly when the [window] property of the
    profile is [null]; a profile that has no [window] property at all is
    treated like one with saved geometry: no call is made. *)
Theorem loadProfile_resizes_on_null_only (p : Profile.t) (cfg : Config)
    (width height scaleFactor : Number) :
  pending cfg = [] ->
  containerRef (app (world cfg)) = true ->
  let loaded :=
    drain (answer_window width height scaleFactor) 3 (step host (Loads p) cfg) in
  let applied := on_app (applyProfile p) (scroll false (world cfg)) in
  pending loaded = []
  /\ ids (app (world loaded)) = Profile.stations p
  /\ MainUiStore.showInput (mainUi (app (world loaded))) = Profile.showInput p
  /\ MainUiStore.showTitlebar (mainUi (app (world loaded))) = Profile.showTitlebar p
  /\ MainUiStore.units (mainUi (app (world loaded))) = Profile.units p
  /\ calls (world loaded)
     = (calls (world cfg)
        ++ match Profile.window p with
           | js_null =>
               [CInnerSize; CScaleFactor;
                CSetSize width (requested_height scaleFactor applied)]
           | js_undefined => []
           | js_value _ => []
           end)%list.
Proof.
  intros Hp Hc loaded applied.
  destruct cfg as [w q]. cbn [pending world] in *. subst q.
  unfold loaded, applied. cbn [step]. unfold loadProfile, batch.
  destruct (Profile.window p) eqn:Ew; cbn [strict_eq_null].
  - cbn. rewrite app_nil_r. repeat split; reflexivity.
  - rewrite applyFnAndResize_sync. cbn [pending world].
    destruct (scroll_issue_all true
                (resize_calls width scaleFactor
                   (on_app (applyProfile p) (scroll false w)))
                (on_app (applyProfile p) (scroll false w))) as (Ha & _ & Hcalls & _).
    rewrite Ha, Hcalls.
    unfold resize_calls, scroll, on_app, applyProfile.
    cbn [app setMainUi setIds containerRef ids mainUi calls].
    rewrite Hc. repeat split; reflexivity.
  - cbn. rewrite app_nil_r. repeat split; reflexivity.
Qed.

(* ------------------------------------------------------------------ *)
(** *** A mutation that suspends *)

(** C5, at [updateAtis].  The advisory fetch is handed to the resize
    transaction as its mutation.  The transaction calls it and goes on: the
    measurement is under way as soon as the mutation waits at its first
    call, and when the window answers first the size is requested, from the
    layout of the old advisory, and scrolling is restored before the fetch
    has been issued; the letter and the texts written afterwards are
    followed by no measurement. *)
Theorem updateAtis_resize_does_not_wait (cfg : Config)
    (width height scaleFactor : Number) (res : FetchAtisResponse.t) :
  pending cfg = [] ->
  validId (metar (world cfg)) = true ->
  containerRef (app (world cfg)) = true ->
  let w := world cfg in
  let starting := CLog Trace ("Starting ATIS letter fetch for " ++ icaoId (metar w)) in
  let started := exec (updateAtis (resize host)) cfg in
  let resized :=
    run [(1%nat, RSize width height); (1%nat, RNumber scaleFactor); (1%nat, RVoid)]
      started in
  let fetched :=
    run [(0%nat, RVoid); (0%nat, RAtis res); (0%nat, RVoid)] resized in
  map fst (pending started) = [starting; CInnerSize]
  /\ calls (world started) = (calls w ++ [starting; CInnerSize])%list
  /\ calls (world resized)
     = (calls w ++ [starting; CInnerSize; CScaleFactor;
                    CSetSize width (requested_height scaleFactor (scroll false w))])%list
  /\ MainUiStore.showScroll (mainUi (app (world resized))) = true
  /\ atisLetter (metar (world resized)) = atisLetter (metar w)
  /\ atisTexts (metar (world resized)) = atisTexts (metar w)
  /\ map fst (pending resized) = [starting]
  /\ calls (world fetched)
     = (calls (world resized)
        ++ [CUpdateAtis (icaoId (metar w));
            CLog Trace "Retrieved ATIS Letter [object Object]"])%list
  /\ atisLetter (metar (world fetched)) = FetchAtisResponse.letter res
  /\ atisTexts (metar (world fetched)) = FetchAtisResponse.texts res
  /\ pending fetched = [].
Proof.
  intros Hp Hv Hc w starting started resized fetched.
  destruct cfg as [w0 q]. cbn [pending world] in *. subst q.
  unfold fetched, resized, started, starting, w, updateAtis, resize,
    applyFnAndResize, resetWindowHeight, requested_height, titlebar_offset, scroll.
  cbn [exec world pending]. rewrite Hv. cbn [negb exec world pending].
  cbn [try_catch seq await exec world pending on_app issue app setMainUi containerRef].
  rewrite Hc. cbn.
  rewrite <- !app_assoc. cbn.
  repeat split; reflexivity.
Qed.

(* ------------------------------------------------------------------ *)
(** *** A station whose lookup failed *)

Lemma invalid_station_issue (c : Call) (w : World) :
  no_fetch c -> invalid_station w -> invalid_station (issue c w).
Proof.
  intros Hc (H1 & H2 & H3 & H4 & H5 & H6).
  repeat split; try assumption.
  cbn [issue calls]. rewrite forallb_app, H6. cbn. rewrite Hc. reflexivity.
Qed.

Ltac invalid_absurd :=
  match goal with
  | Hp : invalid_station ?w, Hn : negb (validId (metar ?w)) = false |- _ =>
      exfalso; destruct Hp as (Hv & _); rewrite Hv in Hn; discriminate Hn
  end.

Lemma invalid_station_toggles (w : World) :
  invalid_station w ->
  invalid_station (on_metar toggleShowMetar_body w)
  /\ invalid_station (on_metar toggleShowAtisTexts_body w).
Proof.
  intros H. unfold on_metar, toggleShowMetar_body, toggleShowAtisTexts_body.
  split.
  - destruct (showFullMetar (metar w)); exact H.
  - destruct (List.length (atisTexts (metar w)) =? 0)%nat; [exact H|].
    destruct (showAtisTexts (metar w)); exact H.
Qed.

Lemma step_invalid_station (i : Input) (cfg : Config) :
  is_mount i = false ->
  safe invalid_station no_fetch cfg ->
  safe invalid_station no_fetch (step host i cfg).
Proof.
  intros Hi Hs.
  destruct i; try discriminate Hi; cbn [step];
    try (apply exec_safe; [exact invalid_station_issue | | exact Hs]).
  - destruct Hs as [Hw Hq]. split; [|exact Hq]. cbn [world].
    unfold onCleanup.
    destruct Hw as (H1 & H2 & H3 & H4 & H5 & H6).
    rewrite H3, H4. repeat split; assumption.
  - unfold toggleShowAtisTexts; respects_cases;
      try reflexivity; try assumption.
    apply invalid_station_toggles; assumption.
  - unfold toggleShowMetar; respects_cases;
      try reflexivity; try assumption.
    apply invalid_station_toggles; assumption.
  - unfold fire. destruct (find _ _) as [t|]; [|exact Hs].
    apply exec_safe; [exact invalid_station_issue | | exact Hs].
    destruct (callback t); cbn [callback_program]; respects_cases;
      try invalid_absurd; exact I.
  - apply settle_safe; [exact invalid_station_issue | exact Hs].
  - exact Hs.
  - unfold addStation; respects_cases; try reflexivity; assumption.
  - unfold removeStation; respects_cases; try reflexivity; assumption.
  - unfold shortcut_D; respects_cases; try reflexivity; assumption.
  - unfold shortcut_B; respects_cases; try reflexivity; assumption.
  - unfold shortcut_U; respects_cases; try reflexivity; assumption.
  - unfold loadProfile. destruct (strict_eq_null _); respects_cases;
      try reflexivity; assumption.
Qed.

Lemma steps_invalid_station (inputs : list Input) :
  forall cfg,
    existsb is_mount inputs = false ->
    safe invalid_station no_fetch cfg ->
    safe invalid_station no_fetch (steps host inputs cfg).
Proof.
  induction inputs as [|i rest IH]; intros cfg Hi Hs; cbn [steps fold_left]; [exact Hs|].
  cbn [existsb] in Hi. apply orb_false_iff in Hi. destruct Hi as [Hi Hrest].
  apply IH; [exact Hrest|]. apply step_invalid_station; assumption.
Qed.

(** C7. When the lookup of a station fails, the monitor shows the id as
    requested and stays invalid; the failure is logged as a warning and the
    mount ends there.  Whatever happens to the page afterwards, no interval
    is armed for it and no METAR or advisory fetch is issued, and
    [updateMetar] and [updateAtis] return at once, doing nothing. *)
Theorem lookup_failure_is_terminal (requested error : string) (inputs : list Input) :
  existsb is_mount inputs = false ->
  let failed :=
    run [(0%nat, RVoid); (0%nat, RReject error); (0%nat, RVoid)]
      (step host Mounts (Config_init requested)) in
  let later := steps host inputs failed in
  pending failed = []
  /\ calls (world failed)
     = [CLog Debug ("Frontend: Looking up requested ID: " ++ requested);
        CLookupStation requested;
        CLog Warn ("Frontend error: " ++ error)]
  /\ displayId (metar (world failed)) = requested
  /\ validId (metar (world later)) = false
  /\ displayId (metar (world later)) = requestedId (metar (world later))
  /\ metarTimerHandle (metar (world later)) = None
  /\ letterTimerHandle (metar (world later)) = None
  /\ timers (world later) = []
  /\ forallb (fun c => negb (is_fetch c)) (calls (world later)) = true
  /\ exec (updateMetar host) later = later
  /\ exec (updateAtis (resize host)) later = later.
Proof.
  intros Hi failed later.
  assert (Hfailed : pending failed = []
                    /\ calls (world failed)
                       = [CLog Debug ("Frontend: Looking up requested ID: " ++ requested);
                          CLookupStation requested;
                          CLog Warn ("Frontend error: " ++ error)]
                    /\ displayId (metar (world failed)) = requested
                    /\ invalid_station (world failed)).
  { unfold failed. cbn. repeat split; reflexivity. }
  destruct Hfailed as (Hp & Hc & Hd & Hinv).
  assert (Hs : safe invalid_station no_fetch later).
  { apply steps_invalid_station; [exact Hi|].
    split; [exact Hinv | rewrite Hp; constructor]. }
  destruct Hs as [(H1 & H2 & H3 & H4 & H5 & H6) _].
  repeat (split; [assumption|]).
  unfold updateMetar, updateAtis. cbn [exec]. rewrite H1. cbn [negb exec].
  split; reflexivity.
Qed.

(* ------------------------------------------------------------------ *)
(** *** The polling intervals *)







(* ------------------------------------------------------------------ *)
(** *** The altimeter text *)

Lemma append_empty_r (s : string) : s ++ "" = s.
Proof. induction s as [|c s IH]; simpl; [reflexivity | rewrite IH; reflexivity]. Qed.

Lemma length_append (s t : string) :
  String.length (s ++ t) = (String.length s + String.length t)%nat.
Proof. induction s as [|c s IH]; simpl; [reflexivity | rewrite IH; reflexivity]. Qed.

Lemma length_zeros (k : nat) : String.length (zeros k) = k.
Proof. induction k as [|k IH]; simpl; [reflexivity | rewrite IH; reflexivity]. Qed.

Lemma substring_split (s : string) :
  forall a, (a <= String.length s)%nat ->
    substring 0 a s ++ substring a (String.length s - a) s = s.
Proof.
  induction s as [|c s IH]; intros a Ha.
  - destruct a; reflexivity.
  - destruct a as [|a].
    + cbn [substring String.length Nat.sub append].
      f_equal. specialize (IH 0%nat (Nat.le_0_l _)).
      rewrite Nat.sub_0_r in IH.
      destruct s; [reflexivity|]. cbn [substring append] in IH. exact IH.
    + cbn [substring String.length Nat.sub append]. f_equal.
      apply IH. cbn [String.length] in Ha. lia.
Qed.

Lemma length_substring (s : string) :
  forall a b, (a + b <= String.length s)%nat -> String.length (substring a b s) = b.
Proof.
  induction s as [|c s IH]; intros a b H; cbn [String.length] in H.
  - assert (a = 0 /\ b = 0)%nat as [-> ->] by lia. reflexivity.
  - destruct a as [|a]; cbn [substring].
    + destruct b as [|b]; [reflexivity|]. cbn [String.length]. f_equal.
      apply IH. lia.
    + apply IH. lia.
Qed.

Lemma decimal_value_zeros (k : nat) (s : string) :
  decimal_value (zeros k ++ s) = decimal_value s.
Proof.
  induction k as [|k IH]; [reflexivity|].
  unfold decimal_value in *. cbn [zeros append NilEmpty.uint_of_string].
  destruct (NilEmpty.uint_of_string (zeros k ++ s)) as [d|] eqn:E;
    destruct (NilEmpty.uint_of_string s) as [d'|] eqn:E';
    cbn in *; try congruence; exact IH.
Qed.

Lemma N_to_uint_nonnil (n : N) : N.to_uint n <> Nil.
Proof.
  intros E. assert (H : N.of_uint (N.to_uint n) = N.of_uint (N.to_uint 0)).
  { rewrite E. reflexivity. }
  rewrite !DecimalN.Unsigned.of_to in H. subst n. discriminate E.
Qed.

Lemma digits_value (n : Z) : decimal_value (digits n) = Some (Z.to_N n).
Proof.
  unfold decimal_value, digits, NilZero.string_of_uint.
  pose proof (N_to_uint_nonnil (Z.to_N n)) as Hnil.
  destruct (N.to_uint (Z.to_N n)) eqn:E; try congruence;
    rewrite <- E, NilEmpty.usu; cbn [option_map];
    rewrite DecimalN.Unsigned.of_to; reflexivity.
Qed.

Lemma digits_nonempty (n : Z) : (1 <= String.length (digits n))%nat.
Proof.
  unfold digits, NilZero.string_of_uint.
  pose proof (N_to_uint_nonnil (Z.to_N n)) as Hnil.
  destruct (N.to_uint (Z.to_N n)); try congruence; cbn; lia.
Qed.

(** Below 10^21, [x.toFixed(f)] is the sign, the integer digits, and for
    [f > 0] a point and exactly [f] more digits; read without the point,
    the digits are the integer nearest to [|x| * 10^f], the larger of two. *)
Lemma toFixed_shape (toString : Number -> string) (x : Number) (f : nat) :
  (Qabs x < inject_Z (10 ^ 21))%Q ->
  exists int frac : string,
    toFixed toString x f = minus_sign x ++ int ++ decimal_point f ++ frac
    /\ String.length frac = f
    /\ (1 <= String.length int)%nat
    /\ decimal_value (int ++ frac)
       = Some (Z.to_N (Qfloor (Qabs x * inject_Z (10 ^ Z.of_nat f) + (1 # 2)))).
Proof.
  intros Hx. unfold toFixed. fold (minus_sign x).
  destruct (Qle_bool (inject_Z (10 ^ 21)) (Qabs x)) eqn:Ebig.
  { apply Qle_bool_iff in Ebig. exfalso. apply (Qlt_not_le _ _ Hx). exact Ebig. }
  set (n := Qfloor (Qabs x * inject_Z (10 ^ Z.of_nat f) + (1 # 2))).
  destruct f as [|f].
  - exists (digits n), "". cbn [decimal_point append].
    rewrite !append_empty_r.
    repeat split; [apply digits_nonempty | apply digits_value].
  - set (m := if (String.length (digits n) <=? S f)%nat
              then zeros (S f + 1 - String.length (digits n)) ++ digits n
              else digits n).
    assert (Hlen : (S (S f) <= String.length m)%nat).
    { unfold m. destruct (String.length (digits n) <=? S f)%nat eqn:E.
      - apply Nat.leb_le in E. pose proof (digits_nonempty n).
        rewrite length_append, length_zeros. lia.
      - apply Nat.leb_gt in E. lia. }
    assert (Hval : decimal_value m = Some (Z.to_N n)).
    { unfold m. destruct (String.length (digits n) <=? S f)%nat;
        [rewrite decimal_value_zeros|]; apply digits_value. }
    exists (substring 0 (String.length m - S f) m),
           (substring (String.length m - S f) (S f) m).
    cbn [decimal_point].
    split; [reflexivity|].
    split; [apply length_substring; lia|].
    split; [rewrite length_substring; lia|].
    pose proof (substring_split m (String.length m - S f)) as Hsplit.
    replace (String.length m - (String.length m - S f))%nat with (S f) in Hsplit by lia.
    rewrite Hsplit by lia. exact Hval.
Qed.

(** C8. The altimeter text depends on the units: in inHg the stored value
    is written with exactly two decimals, in hPa with none, rounded to the
    nearest; a stored value of zero gives the empty text in both. *)
Theorem altimeterString_by_units (ui : MainUiStore.t) (s : Signals) :
  let in_inHg := Units_eqb (MainUiStore.units ui) inHg in
  let x := if in_inHg then AltimeterStore.inHg (altimeter s)
           else AltimeterStore.hpa (altimeter s) in
  let f := if in_inHg then 2%nat else 0%nat in
  ((x == 0)%Q -> altimeterString host ui s = "")
  /\ (~ (x == 0)%Q ->
      (Qabs x < inject_Z (10 ^ 21))%Q ->
      exists int frac : string,
        altimeterString host ui s = minus_sign x ++ int ++ decimal_point f ++ frac
        /\ String.length frac = f
        /\ (1 <= String.length int)%nat
        /\ decimal_value (int ++ frac)
           = Some (Z.to_N (Qfloor (Qabs x * inject_Z (10 ^ Z.of_nat f) + (1 # 2)))))
  /\ altimeterString host (MainUiStore.mk true true true inHg)
       (with_altimeter double_29_921 0%Q) = "29.92"
  /\ altimeterString host (MainUiStore.mk true true true inHg)
       (with_altimeter (29921 # 1000) 0%Q) = "29.92"
  /\ altimeterString host (MainUiStore.mk true true true hPa)
       (with_altimeter 0%Q 1013%Q) = "1013"
  /\ altimeterString host (MainUiStore.mk true true true inHg)
       (with_altimeter 0%Q 1013%Q) = ""
  /\ altimeterString host (MainUiStore.mk true true true hPa)
       (with_altimeter (2992 # 100) 0%Q) = "".
Proof.
  intros in_inHg x f.
  split; [|split].
  - intros Hz. unfold altimeterString. fold in_inHg.
    unfold x in Hz. destruct in_inHg;
      apply Qeq_bool_iff in Hz; rewrite Hz; reflexivity.
  - intros Hnz Hx. unfold altimeterString. fold in_inHg.
    unfold x, f in *. destruct in_inHg.
    + destruct (Qeq_bool (AltimeterStore.inHg (altimeter s)) 0) eqn:E;
        [apply Qeq_bool_iff in E; contradiction|].
      apply toFixed_shape. exact Hx.
    + destruct (Qeq_bool (AltimeterStore.hpa (altimeter s)) 0) eqn:E;
        [apply Qeq_bool_iff in E; contradiction|].
      apply toFixed_shape. exact Hx.
  - repeat split; reflexivity.
Qed.

(* ------------------------------------------------------------------ *)
(** *** More on the station list *)

(** X1. Outside the list, [removeIndex] removes nothing: an index at or
    past the end, or before the start counted from the end, returns the
    list as it is; an index of -2 or below, within the list, removes the
    element counted from the end; and -1 returns the list without its last
    element followed by the whole list. *)
Theorem removeIndex_out_of_range {T} (array : list T) (index : Z) :
  let len := Z.of_nat (List.length array) in
  (len <= index \/ index < - len -> removeIndex array index = array)
  /\ (- len <= index <= -2 ->
      removeIndex array index
      = (firstn (Z.to_nat (len + index)) array
         ++ skipn (S (Z.to_nat (len + index))) array)%list)
  /\ (index = -1 ->
      removeIndex array index = (firstn (Z.to_nat (len - 1)) array ++ array)%list).
Proof.
  intros len. unfold removeIndex, slice, relative_index. fold len.
  replace (0 <? 0) with false by reflexivity.
  rewrite (Z.min_l 0 len) by lia.
  change (Z.to_nat 0) with 0%nat. rewrite skipn_O.
  split; [|split].
  - intros [Hi | Hi].
    + replace (index <? 0) with false by (symmetry; apply Z.ltb_ge; lia).
      replace (index + 1 <? 0) with false by (symmetry; apply Z.ltb_ge; lia).
      rewrite !Z.min_r by lia.
      replace (Z.to_nat (len - len)) with 0%nat by lia. cbn [firstn].
      rewrite app_nil_r. apply firstn_all2. lia.
    + destruct array as [|x array].
      { destruct (index <? 0), (index + 1 <? 0);
          rewrite ?skipn_nil, ?firstn_nil; reflexivity. }
      assert (Hlen : 1 <= len) by (unfold len; cbn [List.length]; lia).
      replace (index <? 0) with true by (symmetry; apply Z.ltb_lt; lia).
      replace (index + 1 <? 0) with true by (symmetry; apply Z.ltb_lt; lia).
      rewrite !Z.max_r by lia.
      change (Z.to_nat (0 - 0)) with 0%nat. change (Z.to_nat 0) with 0%nat.
      rewrite skipn_O. cbn [firstn app]. apply firstn_all2. lia.
  - intros Hi.
    replace (index <? 0) with true by (symmetry; apply Z.ltb_lt; lia).
    replace (index + 1 <? 0) with true by (symmetry; apply Z.ltb_lt; lia).
    rewrite !Z.max_l by lia.
    replace (Z.to_nat (len + index - 0)) with (Z.to_nat (len + index)) by lia.
    replace (Z.to_nat (len + (index + 1))) with (S (Z.to_nat (len + index))) by lia.
    f_equal. apply firstn_all2. rewrite length_skipn. lia.
  - intros Hi. subst index.
    replace (-1 <? 0) with true by reflexivity.
    replace (-1 + 1) with 0 by reflexivity.
    replace (0 <? 0) with false by reflexivity.
    rewrite (Z.min_l 0 len) by lia.
    change (Z.to_nat 0) with 0%nat. rewrite skipn_O.
    f_equal.
    + f_equal. lia.
    + apply firstn_all2. lia.
Qed.

Lemma submitted_app (typed : string) (cfg : Config) :
  let a := app (world (step host Submits (step host (Types typed) cfg))) in
  ids a
  = (if (String.length typed =? 3)%nat || (String.length typed =? 4)%nat
     then ids (app (world cfg)) ++ [typed] else ids (app (world cfg)))%list
  /\ inputId a
     = (if (String.length typed =? 3)%nat || (String.length typed =? 4)%nat
        then "" else typed).
Proof.
  cbn [step]. unfold addStation, batch.
  destruct (exec_applyFnAndResize_app addStation_body
              (mkConfig (on_app (setInputId typed) (world cfg)) (pending cfg)))
    as [Ei Ev].
  rewrite Ei, Ev.
  destruct (addStation_body_ids
              (setMainUi (MainUiStore.set_showScroll false)
                 (app (world (mkConfig (on_app (setInputId typed) (world cfg))
                                (pending cfg)))))) as [Hi Hv].
  rewrite Hi, Hv. cbn [world on_app app setMainUi setInputId inputId ids].
  split; reflexivity.
Qed.

(** X2. Every submit of the id field, accepted or refused, goes through
    one resize: on a page at rest it ends with scrolling shown again and
    one size request, measured on the page as the submit left it.  A
    refused id leaves the list and the field as they were. *)
Theorem addStation_always_resizes (typed : string) (w : World)
    (width height scaleFactor : Number) :
  containerRef (app w) = true ->
  let submitted := on_app addStation_body (scroll false (on_app (setInputId typed) w)) in
  let finished :=
    drain (answer_window width height scaleFactor) 3
      (step host Submits (step host (Types typed) (mkConfig w []))) in
  pending finished = []
  /\ MainUiStore.showScroll (mainUi (app (world finished))) = true
  /\ calls (world finished)
     = (calls w ++ [CInnerSize; CScaleFactor;
                    CSetSize width (requested_height scaleFactor submitted)])%list
  /\ ((String.length typed =? 3)%nat || (String.length typed =? 4)%nat = false ->
      ids (app (world finished)) = ids (app w)
      /\ inputId (app (world finished)) = typed).
Proof.
  intros Hc submitted finished.
  assert (E : finished
              = mkConfig
                  (scroll true
                     (issue_all (resize_calls width scaleFactor submitted) submitted))
                  []).
  { unfold finished. cbn [step]. unfold addStation, batch. cbn [world pending].
    apply applyFnAndResize_sync. }
  rewrite E. cbn [pending world].
  destruct (scroll_issue_all true (resize_calls width scaleFactor submitted) submitted)
    as (Ha & _ & Hcalls & _).
  rewrite Ha, Hcalls.
  assert (Hcont : containerRef (app submitted) = true).
  { unfold submitted, scroll, on_app, addStation_body. cbn [app].
    destruct ((3 <=? _)%nat && _); cbn; exact Hc. }
  unfold resize_calls. rewrite Hcont.
  split; [reflexivity|]. split; [reflexivity|]. split; [reflexivity|].
  intros Hrefused.
  destruct (addStation_body_ids
              (setMainUi (MainUiStore.set_showScroll false) (setInputId typed (app w))))
    as [Hi Hv].
  cbn [setMainUi setInputId inputId ids] in Hi, Hv. rewrite Hrefused in Hi, Hv.
  unfold submitted, scroll, on_app. cbn [app setMainUi ids inputId].
  split; [exact Hi | exact Hv].
Qed.

(** X3. Adding a station and then deleting the last row gives back the
    list there was. *)
Theorem addStation_then_removeStation (typed : string) (cfg : Config) :
  (String.length typed =? 3)%nat || (String.length typed =? 4)%nat = true ->
  let before := ids (app (world cfg)) in
  let added := step host Submits (step host (Types typed) cfg) in
  ids (app (world added)) = (before ++ [typed])%list
  /\ ids (app (world (step host (ClicksDelete (Z.of_nat (List.length before))) added)))
     = before.
Proof.
  intros Hacc before added.
  destruct (submitted_app typed cfg) as [Hi _]. fold added in Hi.
  rewrite Hacc in Hi. fold before in Hi.
  split; [exact Hi|].
  cbn [step]. unfold removeStation.
  destruct (exec_applyFnAndResize_app
              (fun a => setIds (removeIndex (ids a) (Z.of_nat (List.length before))) a)
              added) as [Ei _].
  rewrite Ei. cbn [setIds ids setMainUi]. rewrite Hi.
  rewrite removeIndex_in_range by (rewrite length_app; cbn [List.length]; lia).
  rewrite Nat2Z.id.
  rewrite firstn_app, firstn_all, Nat.sub_diag. cbn [firstn].
  rewrite skipn_all2 by (rewrite length_app; cbn [List.length]; lia).
  rewrite !app_nil_r. reflexivity.
Qed.

(* ------------------------------------------------------------------ *)
(** *** More on the shortcuts *)

(** X4. Ctrl/Cmd+U switches the units between inHg and hPa, at once: it
    issues no call, starts no resize and leaves scrolling, the list and
    what is suspended as they are; pressed twice it restores the store. *)
Theorem shortcut_U_flips_units (cfg : Config) :
  let ui := mainUi (app (world cfg)) in
  let once := step host PressesU cfg in
  let twice := step host PressesU once in
  MainUiStore.units (mainUi (app (world once)))
  = (if Units_eqb (MainUiStore.units ui) inHg then hPa else inHg)
  /\ MainUiStore.units (mainUi (app (world once))) <> MainUiStore.units ui
  /\ MainUiStore.showScroll (mainUi (app (world once))) = MainUiStore.showScroll ui
  /\ MainUiStore.showInput (mainUi (app (world once))) = MainUiStore.showInput ui
  /\ MainUiStore.showTitlebar (mainUi (app (world once))) = MainUiStore.showTitlebar ui
  /\ calls (world once) = calls (world cfg)
  /\ pending once = pending cfg
  /\ ids (app (world once)) = ids (app (world cfg))
  /\ mainUi (app (world twice)) = ui.
Proof.
  intros ui once twice. unfold twice, once, ui. cbn [step]. unfold shortcut_U.
  cbn [exec world pending on_app app setMainUi mainUi ids calls].
  destruct (mainUi (app (world cfg))) as [sc si st [|]]; cbn;
    repeat split; try reflexivity; discriminate.
Qed.

(** What a resize transaction around a mutation that does not suspend
    leaves behind, field by field. *)
Lemma applyFnAndResize_sync_fields (f : World -> World) (w : World)
    (width height scaleFactor : Number) :
  let after := f (scroll false w) in
  let finished :=
    drain (answer_window width height scaleFactor) 3
      (exec (applyFnAndResize host (Sync f Done)) (mkConfig w [])) in
  pending finished = []
  /\ app (world finished) = setMainUi (MainUiStore.set_showScroll true) (app after)
  /\ metar (world finished) = metar after
  /\ calls (world finished) = (calls after ++ resize_calls width scaleFactor after)%list
  /\ timers (world finished) = timers after.
Proof.
  intros after finished. unfold finished. rewrite applyFnAndResize_sync.
  fold after. cbn [pending world].
  destruct (scroll_issue_all true (resize_calls width scaleFactor after) after)
    as (Ha & Hm & Hc & Ht).
  repeat split; assumption.
Qed.

(** X5. With a station listed, Ctrl/Cmd+D flips [showInput] and asks for
    one resize, measured with the flag as flipped; pressed again when that
    resize is over, it brings the flags back. *)
Theorem shortcut_D_toggles (w : World) (width height scaleFactor : Number) :
  ids (app w) <> [] ->
  containerRef (app w) = true ->
  let ui := mainUi (app w) in
  let once :=
    drain (answer_window width height scaleFactor) 3
      (step host PressesD (mkConfig w [])) in
  let twice :=
    drain (answer_window width height scaleFactor) 3 (step host PressesD once) in
  pending once = []
  /\ mainUi (app (world once))
     = MainUiStore.set_showScroll true
         (MainUiStore.set_showInput (negb (MainUiStore.showInput ui)) ui)
  /\ calls (world once)
     = (calls w
        ++ [CInnerSize; CScaleFactor;
            CSetSize width
              (requested_height scaleFactor
                 (on_app (setMainUi (MainUiStore.set_showInput
                                       (negb (MainUiStore.showInput ui))))
                    (scroll false w)))])%list
  /\ pending twice = []
  /\ mainUi (app (world twice)) = MainUiStore.set_showScroll true ui
  /\ ids (app (world twice)) = ids (app w).
Proof.
  intros Hids Hc ui once twice.
  assert (Hbody : forall a, ids a = ids (app w) ->
            toggleInput_body a
            = setMainUi (fun s => MainUiStore.set_showInput
                                    (negb (MainUiStore.showInput s)) s) a).
  { intros a Ha. unfold toggleInput_body. rewrite Ha.
    destruct (ids (app w)); [contradiction | reflexivity]. }
  assert (E1 : once
               = mkConfig
                   (scroll true
                      (issue_all
                         (resize_calls width scaleFactor
                            (on_app toggleInput_body (scroll false w)))
                         (on_app toggleInput_body (scroll false w)))) []).
  { unfold once. cbn [step]. unfold shortcut_D. apply applyFnAndResize_sync. }
  destruct (scroll_issue_all true
              (resize_calls width scaleFactor (on_app toggleInput_body (scroll false w)))
              (on_app toggleInput_body (scroll false w))) as (Ha1 & _ & Hc1 & _).
  set (w1 := scroll true
               (issue_all
                  (resize_calls width scaleFactor
                     (on_app toggleInput_body (scroll false w)))
                  (on_app toggleInput_body (scroll false w)))) in *.
  assert (E2 : twice
               = mkConfig
                   (scroll true
                      (issue_all
                         (resize_calls width scaleFactor
                            (on_app toggleInput_body (scroll false w1)))
                         (on_app toggleInput_body (scroll false w1)))) []).
  { unfold twice. rewrite E1. cbn [step]. unfold shortcut_D.
    apply applyFnAndResize_sync. }
  destruct (scroll_issue_all true
              (resize_calls width scaleFactor (on_app toggleInput_body (scroll false w1)))
              (on_app toggleInput_body (scroll false w1))) as (Ha2 & _).
  rewrite E1, E2. cbn [pending world].
  rewrite Ha2, Ha1, Hc1.
  unfold scroll, on_app in *. cbn [app calls] in *.
  rewrite Ha1.
  rewrite (Hbody (setMainUi (MainUiStore.set_showScroll false) (app w)))
    by reflexivity.
  rewrite Hbody by reflexivity.
  unfold resize_calls. cbn [app setMainUi containerRef mainUi ids]. rewrite Hc.
  unfold ui. cbn [MainUiStore.showInput MainUiStore.set_showInput
                  MainUiStore.set_showScroll MainUiStore.showScroll
                  MainUiStore.showTitlebar MainUiStore.units].
  rewrite negb_involutive.
  repeat split; reflexivity.
Qed.

Lemma shortcut_B_respects (ui : MainUiStore.t) :
  useCustomTitlebar host = false ->
  respects (same_ui ui) (fun _ => True) (shortcut_B host).
Proof.
  intros Hos. unfold shortcut_B. respects_cases; try assumption.
  unfold on_app, toggleTitlebar_body. rewrite Hos.
  match goal with H : same_ui _ _ |- _ => exact H end.
Qed.

(** X6. Off Windows, Ctrl/Cmd+B changes no flag, at any moment of the
    resize it starts all the same; the list stays as it is. *)
Theorem shortcut_B_other_platforms (cfg : Config) (schedule : list (nat * Reply)) :
  useCustomTitlebar host = false ->
  pending cfg = [] ->
  let ui := mainUi (app (world cfg)) in
  let pressed := step host PressesB cfg in
  let during := mainUi (app (world (run schedule pressed))) in
  MainUiStore.showTitlebar during = MainUiStore.showTitlebar ui
  /\ MainUiStore.showInput during = MainUiStore.showInput ui
  /\ MainUiStore.units during = MainUiStore.units ui
  /\ ids (app (world pressed)) = ids (app (world cfg))
  /\ (containerRef (app (world cfg)) = true ->
      calls (world pressed) = (calls (world cfg) ++ [CInnerSize])%list).
Proof.
  intros Hos Hp ui pressed during.
  assert (Hsafe : safe (same_ui ui) (fun _ => True) (run schedule pressed)).
  { apply run_safe; [intros; assumption|].
    unfold pressed. cbn [step].
    apply exec_safe; [intros; assumption | apply shortcut_B_respects; exact Hos |].
    split; [|rewrite Hp; constructor]. repeat split; reflexivity. }
  destruct Hsafe as [(H1 & H2 & H3) _].
  split; [exact H2|]. split; [exact H1|]. split; [exact H3|].
  unfold pressed. cbn [step]. unfold shortcut_B, applyFnAndResize, resetWindowHeight.
  cbn [exec seq world pending]. unfold on_app, toggleTitlebar_body. rewrite Hos.
  cbn [app setMainUi containerRef].
  split.
  - destruct (containerRef (app (world cfg))); reflexivity.
  - intros Hc. rewrite Hc. reflexivity.
Qed.

(** X7. On Windows, Ctrl/Cmd+B flips [showTitlebar] and asks for one
    resize whose height counts 24 pixels for the title bar when it is now
    shown and none when it is now hidden. *)
Theorem shortcut_B_on_windows (w : World) (width height scaleFactor : Number) :
  useCustomTitlebar host = true ->
  containerRef (app w) = true ->
  let ui := mainUi (app w) in
  let toggled :=
    on_app (setMainUi (MainUiStore.set_showTitlebar
                         (negb (MainUiStore.showTitlebar ui)))) (scroll false w) in
  let finished :=
    drain (answer_window width height scaleFactor) 3
      (step host PressesB (mkConfig w [])) in
  pending finished = []
  /\ mainUi (app (world finished))
     = MainUiStore.set_showScroll true
         (MainUiStore.set_showTitlebar (negb (MainUiStore.showTitlebar ui)) ui)
  /\ calls (world finished)
     = (calls w
        ++ [CInnerSize; CScaleFactor;
            CSetSize width
              (inject_Z (offsetHeight host (app toggled) (metar w)
                         + (if MainUiStore.showTitlebar ui then 0 else 24))
               * scaleFactor)%Q])%list.
Proof.
  intros Hos Hc ui toggled finished.
  destruct (applyFnAndResize_sync_fields (on_app (toggleTitlebar_body host)) w
              width height scaleFactor) as (Hp & Ha & _ & Hcalls & _).
  change (drain (answer_window width height scaleFactor) 3
            (exec (applyFnAndResize host (Sync (on_app (toggleTitlebar_body host)) Done))
               (mkConfig w []))) with finished in Hp, Ha, Hcalls.
  assert (Hmac : String.eqb (os_type host) "macos" = false).
  { unfold useCustomTitlebar in Hos. apply String.eqb_eq in Hos. rewrite Hos.
    reflexivity. }
  split; [exact Hp|].
  unfold resize_calls, requested_height, titlebar_offset, scroll, on_app,
    toggleTitlebar_body in *.
  rewrite Hos in *. cbn [app metar calls setMainUi containerRef mainUi] in *.
  rewrite Hc, Hmac in Hcalls.
  rewrite Ha, Hcalls. unfold toggled, ui, scroll, on_app.
  cbn [app metar setMainUi mainUi].
  assert (Eapp : setMainUi
                   (fun s => MainUiStore.set_showTitlebar
                               (negb (MainUiStore.showTitlebar s)) s)
                   (setMainUi (MainUiStore.set_showScroll false) (app w))
                 = setMainUi
                     (MainUiStore.set_showTitlebar
                        (negb (MainUiStore.showTitlebar (mainUi (app w)))))
                     (setMainUi (MainUiStore.set_showScroll false) (app w)))
    by reflexivity.
  rewrite Eapp.
  cbn [MainUiStore.showTitlebar MainUiStore.set_showTitlebar MainUiStore.set_showScroll
       MainUiStore.showScroll MainUiStore.showInput MainUiStore.units].
  destruct (MainUiStore.showTitlebar (mainUi (app w))); split; reflexivity.
Qed.

(** X8. When a call to the window is rejected during a resize, the
    transaction ends there: no size is requested after the rejection and
    the write that shows scrolling again is not made, so after a mutation
    that leaves [showScroll] alone scrolling stays suppressed. *)
Theorem rejected_resize_leaves_scroll_suppressed (f : World -> World) (w : World)
    (n : nat) (error : string) (width height scaleFactor : Number) :
  (n <= 2)%nat ->
  containerRef (app (f (scroll false w))) = true ->
  MainUiStore.showScroll (mainUi (app (f (scroll false w)))) = false ->
  let ended :=
    run (rejecting_schedule n error width height scaleFactor)
      (exec (applyFnAndResize host (Sync f Done)) (mkConfig w [])) in
  pending ended = []
  /\ app (world ended) = app (f (scroll false w))
  /\ MainUiStore.showScroll (mainUi (app (world ended))) = false
  /\ ((n < 2)%nat ->
      calls (world ended)
      = (calls (f (scroll false w)) ++ firstn (S n) [CInnerSize; CScaleFactor])%list).
Proof.
  intros Hn Hc Hs ended. unfold ended, applyFnAndResize, resetWindowHeight.
  cbn [exec seq world pending]. fold (scroll false w). rewrite Hc.
  destruct n as [|[|[|n]]]; [| | | lia]; cbn; rewrite <- ?app_assoc;
    (split; [reflexivity|]); (split; [reflexivity|]); (split; [exact Hs|]);
    intros Hlt; solve [reflexivity | lia].
Qed.

(* ------------------------------------------------------------------ *)
(** *** Saving what was loaded *)

(** X9. What [currentProfileState] gives after a profile is loaded is
    that profile's station list, input and title bar flags and units, under
    the empty name; and loading a profile made of the current list and
    flags changes neither of them, whatever its name, window and hide flag
    are.  The typed id is left alone. *)
Theorem loadProfile_currentProfileState (p : Profile.t) (cfg : Config)
    (name : string) (window : Optional Window.t) (hide : bool) :
  let a := app (world cfg) in
  let loaded := app (world (step host (Loads p) cfg)) in
  let saved :=
    Profile.mk name (ids a) (MainUiStore.showInput (mainUi a))
      (MainUiStore.showTitlebar (mainUi a)) window (MainUiStore.units (mainUi a)) hide in
  let reloaded := app (world (step host (Loads saved) cfg)) in
  currentProfileState loaded
  = CurrentProfile.mk "" (Profile.stations p) (Profile.showTitlebar p)
      (Profile.showInput p) (Profile.units p)
  /\ inputId loaded = inputId a
  /\ currentProfileState reloaded = currentProfileState a.
Proof.
  intros a loaded saved reloaded.
  assert (H : forall q,
            currentProfileState (app (world (step host (Loads q) cfg)))
            = CurrentProfile.mk "" (Profile.stations q) (Profile.showTitlebar q)
                (Profile.showInput q) (Profile.units q)
            /\ inputId (app (world (step host (Loads q) cfg))) = inputId a).
  { intros q. cbn [step]. unfold loadProfile, batch, applyFnAndResize, resetWindowHeight.
    destruct (strict_eq_null (Profile.window q)).
    - cbn [exec seq world pending]. unfold on_app, applyProfile.
      cbn [app setMainUi setIds containerRef].
      destruct (containerRef (app (world cfg))); cbn; split; reflexivity.
    - cbn. split; reflexivity. }
  split; [exact (proj1 (H p))|]. split; [exact (proj2 (H p))|].
  unfold reloaded. rewrite (proj1 (H saved)). reflexivity.
Qed.

(* ------------------------------------------------------------------ *)
(** *** The life of a station monitor *)

(** X10. When the lookup succeeds the monitor is valid, shows the FAA id
    of the station, or its ICAO id when the FAA id is "-", and fetches
    under the ICAO id the lookup returned: one METAR fetch and one
    advisory fetch are issued at once, and both intervals are armed,
    whether or not the first fetches succeed. *)
Theorem mount_resolves_station (requested : string) (station : Station.t)
    (rm ra : Reply) (width height scaleFactor : Number) :
  let polling :=
    run (first_poll_schedule station rm ra width height scaleFactor)
      (step host Mounts (Config_init requested)) in
  let s := metar (world polling) in
  icaoId s = Station.icaoId station
  /\ validId s = true
  /\ displayId s = shown_id station
  /\ nth_error (calls (world polling)) 1 = Some (CLookupStation requested)
  /\ filter is_fetch (calls (world polling))
     = [CUpdateMetar (Station.icaoId station); CUpdateAtis (Station.icaoId station)]
  /\ metarTimerHandle s = Some 1
  /\ letterTimerHandle s = Some 2
  /\ map callback (timers (world polling)) = [cb_updateMetar; cb_updateAtis].
Proof.
  intros polling s.
  assert (Hd : displayId s
               = (if negb (String.eqb (Station.faaId station) "-")
                  then Station.faaId station else Station.icaoId station)).
  { unfold s, polling. destruct rm; destruct ra; reflexivity. }
  split; [unfold s, polling; destruct rm; destruct ra; reflexivity|].
  split; [unfold s, polling; destruct rm; destruct ra; reflexivity|].
  split.
  { rewrite Hd. unfold shown_id.
    destruct (String.eqb (Station.faaId station) "-"); reflexivity. }
  unfold s, polling. destruct rm; destruct ra; repeat split; reflexivity.
Qed.

Lemma onCleanup_fields (w : World) :
  app (onCleanup w) = app w /\ calls (onCleanup w) = calls w
  /\ (timers w = [] -> timers (onCleanup w) = []).
Proof.
  unfold onCleanup.
  destruct (metarTimerHandle (metar w)); cbn [metar clearInterval];
    destruct (letterTimerHandle (metar w)); cbn;
    repeat split; try reflexivity; intros E; rewrite E; reflexivity.
Qed.

Lemma cancelled_issue (fetched : list Call) (c : Call) (w : World) :
  no_fetch c -> cancelled fetched w -> cancelled fetched (issue c w).
Proof.
  intros Hc [Ht Hf]. split; [exact Ht|].
  cbn [issue calls]. rewrite filter_app, Hf. cbn [filter]. rewrite Hc.
  apply app_nil_r.
Qed.

Lemma step_cancelled (fetched : list Call) (i : Input) (cfg : Config) :
  is_mount i = false ->
  safe (cancelled fetched) no_fetch cfg ->
  safe (cancelled fetched) no_fetch (step host i cfg).
Proof.
  intros Hi Hs.
  destruct i; try discriminate Hi; cbn [step];
    try (apply exec_safe; [exact (cancelled_issue fetched) | | exact Hs]).
  - destruct Hs as [[Ht Hf] Hq]. split; [|exact Hq]. cbn [world].
    destruct (onCleanup_fields (world cfg)) as (_ & Hc & Htimers).
    split; [apply Htimers; exact Ht | rewrite Hc; exact Hf].
  - unfold toggleShowAtisTexts; respects_cases; try reflexivity; assumption.
  - unfold toggleShowMetar; respects_cases; try reflexivity; assumption.
  - unfold fire. destruct Hs as [[Ht Hf] Hq]. rewrite Ht. cbn [find].
    split; [split; assumption | exact Hq].
  - apply settle_safe; [exact (cancelled_issue fetched) | exact Hs].
  - exact Hs.
  - unfold addStation; respects_cases; try reflexivity; assumption.
  - unfold removeStation; respects_cases; try reflexivity; assumption.
  - unfold shortcut_D; respects_cases; try reflexivity; assumption.
  - unfold shortcut_B; respects_cases; try reflexivity; assumption.
  - unfold shortcut_U; respects_cases; try reflexivity; assumption.
  - unfold loadProfile. destruct (strict_eq_null _); respects_cases;
      try reflexivity; assumption.
Qed.

Lemma steps_cancelled (fetched : list Call) (inputs : list Input) :
  forall cfg,
    existsb is_mount inputs = false ->
    safe (cancelled fetched) no_fetch cfg ->
    safe (cancelled fetched) no_fetch (steps host inputs cfg).
Proof.
  induction inputs as [|i rest IH]; intros cfg Hi Hs; cbn [steps fold_left]; [exact Hs|].
  cbn [existsb] in Hi. apply orb_false_iff in Hi. destruct Hi as [Hi Hrest].
  apply IH; [exact Hrest|]. apply step_cancelled; assumption.
Qed.

(** X11. Removing a station whose first poll is over clears both of its
    intervals: from then on an elapsed interval runs nothing, and whatever
    else happens to the page, no further METAR or advisory fetch is issued
    for it. *)
Theorem unmount_stops_polling (requested : string) (station : Station.t)
    (rm ra : Reply) (width height scaleFactor : Number)
    (inputs : list Input) (h : Z) :
  existsb is_mount inputs = false ->
  let polling :=
    run (first_poll_schedule station rm ra width height scaleFactor)
      (step host Mounts (Config_init requested)) in
  let unmounted := step host Unmounts polling in
  let later := steps host inputs unmounted in
  List.length (timers (world polling)) = 2%nat
  /\ timers (world unmounted) = []
  /\ step host (Fires h) unmounted = unmounted
  /\ timers (world later) = []
  /\ filter is_fetch (calls (world later))
     = [CUpdateMetar (Station.icaoId station); CUpdateAtis (Station.icaoId station)].
Proof.
  intros Hi polling unmounted later.
  assert (H0 : List.length (timers (world polling)) = 2%nat
               /\ pending unmounted = []
               /\ timers (world unmounted) = []
               /\ filter is_fetch (calls (world unmounted))
                  = [CUpdateMetar (Station.icaoId station);
                     CUpdateAtis (Station.icaoId station)]).
  { unfold unmounted, polling.
    destruct rm; destruct ra; repeat split; reflexivity. }
  destruct H0 as (Hlen & Hp & Ht & Hf).
  split; [exact Hlen|]. split; [exact Ht|].
  split; [cbn [step]; unfold fire; rewrite Ht; reflexivity|].
  assert (Hs : safe (cancelled [CUpdateMetar (Station.icaoId station);
                                CUpdateAtis (Station.icaoId station)])
                 no_fetch later).
  { apply steps_cancelled; [exact Hi|].
    split; [split; assumption | rewrite Hp; constructor]. }
  destruct Hs as [[Hlt Hlf] _]. split; assumption.
Qed.

(** X12. Nothing checks that the station is still there when its mount
    goes on: removed while the lookup is pending, the station has no
    interval to clear, and both intervals are armed when the lookup and
    the first fetch settle afterwards. *)
Theorem unmount_while_resolving (requested : string) (station : Station.t)
    (rm : Reply) :
  let resolving := step host Mounts (Config_init requested) in
  let unmounted := step host Unmounts resolving in
  let resumed := run (mount_schedule station rm) unmounted in
  timers (world unmounted) = []
  /\ List.length (pending unmounted) = 1%nat
  /\ timers (world resumed) = mounted_timers
  /\ metarTimerHandle (metar (world resumed)) = Some 1
  /\ letterTimerHandle (metar (world resumed)) = Some 2.
Proof.
  unfold mounted_timers.
  destruct rm; repeat split; reflexivity.
Qed.

Lemma onCleanup_timers_only (w : World) :
  exists T, onCleanup w = mkWorld (app w) (metar w) (calls w) T (next_handle w) (draws w).
Proof.
  unfold onCleanup.
  destruct (metarTimerHandle (metar w)); cbn [metar clearInterval];
    destruct (letterTimerHandle (metar w)); cbn [clearInterval app metar calls timers
                                                   next_handle draws];
    try (eexists; reflexivity).
  exists (timers w). destruct w; reflexivity.
Qed.

(** X13. A METAR fetch in flight when the station is removed is not
    discarded: when it settles, its result is applied to the signals
    exactly as if the station were still there. *)
Theorem fetch_in_flight_survives_unmount (r : Reply) (w : World) :
  let started := exec (updateMetar host) (mkConfig w []) in
  let settled := drain (answer_metar r) 4 (step host Unmounts started) in
  pending settled = []
  /\ metar (world settled) = delivered r (metar w)
  /\ metar (world settled) = metar (world (deliver r (mkConfig w []))).
Proof.
  intros started settled.
  assert (H : pending settled = [] /\ metar (world settled) = delivered r (metar w)).
  { unfold settled, started, delivered, updateMetar, obs_date.
    cbn [exec world pending step].
    destruct (validId (metar w)) eqn:Ev; cbn [negb andb].
    - cbn [try_catch await exec world pending].
      match goal with
      | |- context [onCleanup ?x] =>
          destruct (onCleanup_timers_only x) as [T ET]; rewrite ET
      end.
      cbn [issue app metar calls next_handle draws].
      destruct r; cbn; try (split; reflexivity).
      destruct (is_newer (currentTimestamp (metar w)) _) eqn:En;
        cbn; rewrite ?En; split; reflexivity.
    - cbn [exec world pending].
      destruct (onCleanup_timers_only w) as [T ET]. rewrite ET.
      destruct r; cbn; split; reflexivity. }
  destruct H as [Hp Hm]. split; [exact Hp|]. split; [exact Hm|].
  rewrite Hm. symmetry. apply deliver_metar.
Qed.


(** X15. While a station has no advisory texts, a click on its letter
    cannot open the advisory panel: the flag ends false and the full
    report is as it was; the click still costs one resize. *)
Theorem toggleShowAtisTexts_without_texts (w : World)
    (width height scaleFactor : Number) :
  atisTexts (metar w) = [] ->
  containerRef (app w) = true ->
  let finished :=
    drain (answer_window width height scaleFactor) 3
      (step host ClicksAtisLetter (mkConfig w [])) in
  pending finished = []
  /\ showAtisTexts (metar (world finished)) = false
  /\ showFullMetar (metar (world finished)) = showFullMetar (metar w)
  /\ calls (world finished)
     = (calls w
        ++ [CInnerSize; CScaleFactor;
            CSetSize width
              (requested_height scaleFactor
                 (on_metar (setShowAtisTexts false) (scroll false w)))])%list.
Proof.
  intros Ht Hc finished.
  destruct (applyFnAndResize_sync_fields (on_metar toggleShowAtisTexts_body) w
              width height scaleFactor) as (Hp & _ & Hm & Hcalls & _).
  assert (E : finished
              = drain (answer_window width height scaleFactor) 3
                  (exec (applyFnAndResize host
                           (Sync (on_metar toggleShowAtisTexts_body) Done))
                     (mkConfig w []))) by reflexivity.
  rewrite E.
  assert (Hbody : on_metar toggleShowAtisTexts_body (scroll false w)
                  = on_metar (setShowAtisTexts false) (scroll false w)).
  { unfold on_metar, scroll, on_app, toggleShowAtisTexts_body. cbn [metar].
    rewrite Ht. reflexivity. }
  rewrite Hbody in Hm, Hcalls.
  split; [exact Hp|]. rewrite Hm, Hcalls.
  unfold resize_calls, on_metar, scroll, on_app. cbn [app metar calls containerRef setMainUi].
  rewrite Hc. repeat split; reflexivity.
Qed.




Lemma step_awaiting_first_metar (i : Input) (cfg : Config) :
  safe awaiting_first_metar (fun _ => True) cfg ->
  safe awaiting_first_metar (fun _ => True) (step host i cfg).
Proof.
  intros Hs.
  assert (Hissue : forall c w, True -> awaiting_first_metar w
                               -> awaiting_first_metar (issue c w))
    by (intros; assumption).
  destruct i; cbn [step];
    try (apply exec_safe; [exact Hissue | | exact Hs]).
  - unfold onMount; respects_cases; try assumption.
    intros Hnone; discriminate Hnone.
  - destruct Hs as [Hw Hq]. split; [|exact Hq].
    unfold awaiting_first_metar; cbn [world]. rewrite onCleanup_metar. exact Hw.
  - unfold toggleShowAtisTexts; respects_cases; try assumption.
    unfold awaiting_first_metar, on_metar, toggleShowAtisTexts_body in *. cbn [metar].
    destruct (List.length _ =? 0)%nat; [assumption|].
    destruct (showAtisTexts _); assumption.
  - unfold toggleShowMetar; respects_cases; try assumption.
    unfold awaiting_first_metar, on_metar, toggleShowMetar_body in *. cbn [metar].
    destruct (showFullMetar _); assumption.
  - unfold fire. destruct (find _ _) as [t|]; [|exact Hs].
    apply exec_safe; [exact Hissue | | exact Hs].
    destruct (callback t); cbn [callback_program]; respects_cases; try assumption.
    intros Hnone; discriminate Hnone.
  - apply settle_safe; [exact Hissue | exact Hs].
  - exact Hs.
  - unfold addStation; respects_cases; assumption.
  - unfold removeStation; respects_cases; assumption.
  - unfold shortcut_D; respects_cases; assumption.
  - unfold shortcut_B; respects_cases; assumption.
  - unfold shortcut_U; respects_cases; assumption.
  - unfold loadProfile. destruct (strict_eq_null _); respects_cases; assumption.
Qed.

(** X18. Until its first METAR is accepted, a station shows no data: in
    every state the page can reach without an accepted observation, the
    wind is empty, the altimeter text is empty in both units, and the full
    report is not on the page, clicked open or not. *)
Theorem nothing_shown_before_first_metar (requested : string) (cfg : Config)
    (ui : MainUiStore.t) :
  reachable host requested cfg ->
  currentTimestamp (metar (world cfg)) = None ->
  wind (metar (world cfg)) = ""
  /\ altimeterString host ui (metar (world cfg)) = ""
  /\ rendersFullMetar (metar (world cfg)) = false
  /\ rendersFullMetar (metar (world (step host ClicksAltimeterOrWind cfg))) = false.
Proof.
  intros Hr Hnone.
  assert (Hs : safe awaiting_first_metar (fun _ => True) cfg).
  { clear Hnone. induction Hr as [|i cfg _ IH].
    - split; [intros _; repeat split; reflexivity | constructor].
    - apply step_awaiting_first_metar; exact IH. }
  destruct Hs as [Hw _]. destruct (Hw Hnone) as (Hraw & Hwind & Halt).
  split; [exact Hwind|].
  split.
  { unfold altimeterString. rewrite Halt.
    destruct (Units_eqb (MainUiStore.units ui) inHg); reflexivity. }
  split.
  { unfold rendersFullMetar. rewrite Hraw. apply andb_false_r. }
  cbn [step]. unfold toggleShowMetar. cbn [exec].
  rewrite exec_resize_batch_metar.
  unfold rendersFullMetar, toggleShowMetar_body.
  destruct (showFullMetar (metar (world cfg)));
    cbn [setShowFullMetar setShowAtisTexts rawMetar showFullMetar];
    rewrite Hraw; apply andb_false_r.
Qed.

(** X19. Removing a station clears exactly the intervals whose handles
    it stored and no other; it leaves the signals, the page and the call
    trace alone, and clearing again changes nothing. *)
Theorem onCleanup_clears_own_timers (w : World) :
  (forall t,
     In t (timers (onCleanup w))
     <-> In t (timers w)
         /\ metarTimerHandle (metar w) <> Some (handle t)
         /\ letterTimerHandle (metar w) <> Some (handle t))
  /\ onCleanup (onCleanup w) = onCleanup w
  /\ metar (onCleanup w) = metar w
  /\ app (onCleanup w) = app w
  /\ calls (onCleanup w) = calls w.
Proof.
  assert (Hneq : forall (a b : Z), negb (a =? b) = true <-> Some b <> Some a).
  { intros a b. rewrite negb_true_iff, Z.eqb_neq. split; intros H E; apply H.
    - injection E; auto.
    - subst; reflexivity. }
  assert (Hff : forall (A : Type) (f : A -> bool) (l : list A),
             filter f (filter f l) = filter f l).
  { intros A f l. induction l as [|x l IH]; [reflexivity|].
    cbn [filter]. destruct (f x) eqn:E; [cbn [filter]; rewrite E, IH|]; auto. }
  assert (Hfc : forall (A : Type) (f g : A -> bool) (l : list A),
             filter g (filter f (filter g (filter f l))) = filter g (filter f l)).
  { intros A f g l. induction l as [|x l IH]; [reflexivity|].
    cbn [filter]. destruct (f x) eqn:Ef; [|exact IH].
    cbn [filter]. destruct (g x) eqn:Eg; [|exact IH].
    cbn [filter]. rewrite Ef. cbn [filter]. rewrite Eg, IH. reflexivity. }
  unfold onCleanup.
  destruct (metarTimerHandle (metar w)) as [h1|] eqn:E1; cbn [metar clearInterval];
    destruct (letterTimerHandle (metar w)) as [h2|] eqn:E2;
    cbn [metar clearInterval timers app calls]; rewrite ?E1, ?E2;
    cbn [metar clearInterval timers app calls]; rewrite ?E2;
    cbn [metar clearInterval timers app calls].
  - split; [|split; [|repeat split]].
    + intros t. rewrite !filter_In, !Hneq. tauto.
    + unfold clearInterval. cbn [app metar calls timers next_handle draws].
      rewrite Hfc. reflexivity.
  - split; [|split; [|repeat split]].
    + intros t. rewrite !filter_In, !Hneq. intuition discriminate.
    + unfold clearInterval. cbn [app metar calls timers next_handle draws].
      rewrite Hff. reflexivity.
  - split; [|split; [|repeat split]].
    + intros t. rewrite !filter_In, !Hneq. intuition discriminate.
    + unfold clearInterval. cbn [app metar calls timers next_handle draws].
      rewrite Hff. reflexivity.
  - split; [|split; [|repeat split]].
    + intros t. intuition discriminate.
    + reflexivity.
Qed.

(** X20. A METAR fetch that fails is logged as a warning that carries the
    error, and nothing else happens: the signals, the page and the armed
    intervals are as before, and the poll has ended. *)
Theorem updateMetar_failure_is_logged (error : string) (w : World) :
  validId (metar w) = true ->
  let failed := deliver (RReject error) (mkConfig w []) in
  pending failed = []
  /\ calls (world failed)
     = (calls w
        ++ [CLog Trace ("Frontend: Starting update check for id " ++ icaoId (metar w));
            CUpdateMetar (icaoId (metar w));
            CLog Warn ("Frontend error: " ++ error)])%list
  /\ metar (world failed) = metar w
  /\ app (world failed) = app w
  /\ timers (world failed) = timers w.
Proof.
  intros Hv failed. unfold failed, deliver, updateMetar.
  cbn [exec world pending]. rewrite Hv. cbn.
  rewrite <- !app_assoc. repeat split; reflexivity.
Qed.

End Properties.

(* ================================================================== *)
(** ** The properties at the instances *)


Lemma panels_mutually_exclusive_witness :
  reachable example_host "KJFK"
    (step example_host ClicksAltimeterOrWind (Config_init "KJFK"))
  /\ showFullMetar
       (metar (world (step example_host ClicksAltimeterOrWind (Config_init "KJFK"))))
     && showAtisTexts
          (metar (world (step example_host ClicksAltimeterOrWind (Config_init "KJFK"))))
     = false.
Proof.
  split.
  - apply reachable_step. apply reachable_init.
  - exact (proj1 (panels_mutually_exclusive example_host "KJFK" _
                    (reachable_step example_host "KJFK" ClicksAltimeterOrWind _
                       (reachable_init example_host "KJFK")))).
Defined.

(** C3, as the specification words it, fails in both directions: an id of
    four characters between blanks is refused, and blanks around a single
    character are accepted as a station. *)
Lemma addStation_does_not_trim :
  String.length (trim "  KJFK ") = 4%nat
  /\ ids (app (world (step example_host Submits
                        (step example_host (Types "  KJFK ") (Config_init "KJFK")))))
     = []
  /\ String.length (trim " K  ") = 1%nat
  /\ ids (app (world (step example_host Submits
                        (step example_host (Types " K  ") (Config_init "KJFK")))))
     = [" K  "].
Proof. repeat split; reflexivity. Qed.

Lemma loadProfile_resizes_on_null_only_witness :
  pending (Config_init "KJFK") = []
  /\ containerRef (app (world (Config_init "KJFK"))) = true
  /\ calls (world (drain (answer_window 300 120 1) 3
                     (step example_host (Loads profile_without_window)
                        (Config_init "KJFK"))))
     = [].
Proof.
  split; [reflexivity|]. split; [reflexivity|].
  exact (proj2 (proj2 (proj2 (proj2 (proj2
           (loadProfile_resizes_on_null_only example_host profile_without_window
              (Config_init "KJFK") 300 120 1 eq_refl eq_refl)))))).
Defined.

Lemma updateAtis_resize_does_not_wait_witness :
  pending resolved_page = []
  /\ validId (metar (world resolved_page)) = true
  /\ containerRef (app (world resolved_page)) = true
  /\ calls (world (run [(1%nat, RSize 300 120); (1%nat, RNumber 1); (1%nat, RVoid)]
                     (exec (updateAtis (resize example_host)) resolved_page)))
     = [CLog Trace "Starting ATIS letter fetch for KJFK"; CInnerSize; CScaleFactor;
        CSetSize 300 (requested_height example_host 1 (scroll false (world resolved_page)))].
Proof.
  split; [reflexivity|]. split; [reflexivity|]. split; [reflexivity|].
  exact (proj1 (proj2 (proj2
           (updateAtis_resize_does_not_wait example_host resolved_page 300 120 1
              advisory_B eq_refl eq_refl eq_refl)))).
Defined.




Lemma lookup_failure_is_terminal_witness :
  existsb is_mount [Fires 1; ClicksAtisLetter; Settles 0 (RSize 300 120); PressesU] = false
  /\ validId (metar (world (steps example_host
                              [Fires 1; ClicksAtisLetter; Settles 0 (RSize 300 120); PressesU]
                              (run [(0%nat, RVoid); (0%nat, RReject "not found");
                                    (0%nat, RVoid)]
                                 (step example_host Mounts (Config_init "XXXX"))))))
     = false.
Proof.
  split; [reflexivity|].
  exact (proj1 (proj2 (proj2 (proj2
           (lookup_failure_is_terminal example_host "XXXX" "not found"
              [Fires 1; ClicksAtisLetter; Settles 0 (RSize 300 120); PressesU]
              eq_refl))))).
Defined.

Lemma removeStation_preserves_order_witness :
  0 <= 1 < Z.of_nat (List.length (ids (app (world three_stations))))
  /\ ids (app (world (step example_host (ClicksDelete 1) three_stations)))
     = ["KJFK"; "KORD"].
Proof.
  assert (H : 0 <= 1 < Z.of_nat (List.length (ids (app (world three_stations)))))
    by (simpl; lia).
  split; [exact H|].
  exact (proj1 (removeStation_preserves_order example_host 1 three_stations H)).
Defined.

Lemma shortcut_D_gated_witness :
  ids (app (world (Config_init "KJFK"))) = []
  /\ pending (Config_init "KJFK") = []
  /\ MainUiStore.showInput
       (mainUi (app (world (run [(0%nat, RSize 300 120)]
                              (step example_host PressesD (Config_init "KJFK"))))))
     = true.
Proof.
  split; [reflexivity|]. split; [reflexivity|].
  exact (proj1 (shortcut_D_gated example_host (Config_init "KJFK")
                  [(0%nat, RSize 300 120)] 300 120 1 eq_refl eq_refl)).
Defined.

Lemma addStation_always_resizes_witness :
  containerRef (app (World_init "KJFK")) = true
  /\ calls (world (drain (answer_window 300 120 1) 3
                     (step example_host Submits
                        (step example_host (Types "KJFKX")
                           (mkConfig (World_init "KJFK") [])))))
     = [CInnerSize; CScaleFactor; CSetSize 300 (44 # 1)].
Proof.
  split; [reflexivity|].
  exact (proj1 (proj2 (proj2
           (addStation_always_resizes example_host "KJFKX" (World_init "KJFK")
              300 120 1 eq_refl)))).
Defined.

Lemma addStation_then_removeStation_witness :
  ((String.length "KORD" =? 3)%nat || (String.length "KORD" =? 4)%nat = true)
  /\ ids (app (world (step example_host (ClicksDelete 3)
                        (step example_host Submits
                           (step example_host (Types "KORD") three_stations)))))
     = ["KJFK"; "KLAX"; "KORD"].
Proof.
  split; [reflexivity|].
  exact (proj2 (addStation_then_removeStation example_host "KORD" three_stations
                  eq_refl)).
Defined.

Lemma shortcut_D_toggles_witness :
  ids (app (world three_stations)) <> []
  /\ containerRef (app (world three_stations)) = true
  /\ mainUi (app (world (drain (answer_window 300 120 1) 3
                           (step example_host PressesD
                              (mkConfig (world three_stations) [])))))
     = MainUiStore.mk true false true inHg.
Proof.
  assert (H : ids (app (world three_stations)) <> []) by discriminate.
  split; [exact H|]. split; [reflexivity|].
  exact (proj1 (proj2
           (shortcut_D_toggles example_host (world three_stations) 300 120 1
              H eq_refl))).
Defined.

Lemma shortcut_B_other_platforms_witness :
  useCustomTitlebar example_mac_host = false
  /\ pending three_stations = []
  /\ MainUiStore.showTitlebar
       (mainUi (app (world (run [(0%nat, RSize 300 120); (0%nat, RNumber 1)]
                              (step example_mac_host PressesB three_stations)))))
     = true.
Proof.
  split; [reflexivity|]. split; [reflexivity|].
  exact (proj1 (shortcut_B_other_platforms example_mac_host three_stations
                  [(0%nat, RSize 300 120); (0%nat, RNumber 1)] eq_refl eq_refl)).
Defined.

Lemma shortcut_B_on_windows_witness :
  useCustomTitlebar example_host = true
  /\ containerRef (app (world three_stations)) = true
  /\ mainUi (app (world (drain (answer_window 300 120 1) 3
                           (step example_host PressesB
                              (mkConfig (world three_stations) [])))))
     = MainUiStore.mk true true false inHg.
Proof.
  split; [reflexivity|]. split; [reflexivity|].
  exact (proj1 (proj2
           (shortcut_B_on_windows example_host (world three_stations) 300 120 1
              eq_refl eq_refl))).
Defined.

Lemma rejected_resize_leaves_scroll_suppressed_witness :
  (1 <= 2)%nat
  /\ MainUiStore.showScroll
       (mainUi (app (world (run (rejecting_schedule 1 "window closed" 300 120 1)
                              (exec (applyFnAndResize example_host
                                       (Sync (on_metar toggleShowMetar_body) Done))
                                 (mkConfig (World_init "KJFK") []))))))
     = false.
Proof.
  assert (H : (1 <= 2)%nat) by lia.
  split; [exact H|].
  exact (proj1 (proj2 (proj2
           (rejected_resize_leaves_scroll_suppressed example_host
              (on_metar toggleShowMetar_body) (World_init "KJFK") 1 "window closed"
              300 120 1 H eq_refl eq_refl)))).
Defined.

Lemma unmount_stops_polling_witness :
  existsb is_mount [Fires 1; Fires 2; ClicksAtisLetter; Settles 0 (RSize 300 120)] = false
  /\ timers (world (steps example_host
                      [Fires 1; Fires 2; ClicksAtisLetter; Settles 0 (RSize 300 120)]
                      (step example_host Unmounts
                         (run (first_poll_schedule KJFK (RMetar report_at_12)
                                 (RAtis advisory_B) 300 120 1)
                            (step example_host Mounts (Config_init "JFK"))))))
     = [].
Proof.
  split; [reflexivity|].
  exact (proj1 (proj2 (proj2 (proj2
           (unmount_stops_polling example_host "JFK" KJFK (RMetar report_at_12)
              (RAtis advisory_B) 300 120 1
              [Fires 1; Fires 2; ClicksAtisLetter; Settles 0 (RSize 300 120)] 1
              eq_refl))))).
Defined.


Lemma toggleShowAtisTexts_without_texts_witness :
  atisTexts (metar (world resolved_page)) = []
  /\ containerRef (app (world resolved_page)) = true
  /\ showAtisTexts
       (metar (world (drain (answer_window 300 120 1) 3
                        (step example_host ClicksAtisLetter
                           (mkConfig (world resolved_page) [])))))
     = false.
Proof.
  split; [reflexivity|]. split; [reflexivity|].
  exact (proj1 (proj2
           (toggleShowAtisTexts_without_texts example_host (world resolved_page)
              300 120 1 eq_refl eq_refl))).
Defined.



Lemma nothing_shown_before_first_metar_witness :
  reachable example_host "KJFK"
    (step example_host ClicksAltimeterOrWind (Config_init "KJFK"))
  /\ currentTimestamp
       (metar (world (step example_host ClicksAltimeterOrWind (Config_init "KJFK"))))
     = None
  /\ rendersFullMetar
       (metar (world (step example_host ClicksAltimeterOrWind (Config_init "KJFK"))))
     = false.
Proof.
  split; [apply reachable_step; apply reachable_init|].
  split; [reflexivity|].
  exact (proj1 (proj2 (proj2
           (nothing_shown_before_first_metar example_host "KJFK" _
              (MainUiStore.mk true true true hPa)
              (reachable_step example_host "KJFK" ClicksAltimeterOrWind _
                 (reachable_init example_host "KJFK"))
              eq_refl)))).
Defined.

Lemma updateMetar_failure_is_logged_witness :
  validId (metar (world resolved_page)) = true
  /\ calls (world (deliver example_host (RReject "timeout")
                     (mkConfig (world resolved_page) [])))
     = [CLog Trace "Frontend: Starting update check for id KJFK";
        CUpdateMetar "KJFK";
        CLog Warn "Frontend error: timeout"].
Proof.
  split; [reflexivity|].
  exact (proj1 (proj2
           (updateMetar_failure_is_logged example_host "timeout" (world resolved_page)
              eq_refl))).
Defined.
